(** * wait_event.h: a single-assignment event result holder

    A shallow embedding of [src/wait_event.h]: the thread checker
    [SequenceCheckerImpl], the process-wide [EventPumper] and the class
    template [EventResultHolder<Event, Result>], followed by the properties of
    these definitions that the specification states.

    The member functions mutate the holder, the global [loop_pumper] and the
    diagnostic streams; they are written in a small state monad whose
    computations can also terminate the process (a failed [assert]) or leave
    defined behaviour (a null dereference). *)

From Stdlib Require Import ZArith List Bool String Lia PeanoNat.
Import ListNotations.

Local Open Scope string_scope.
Local Open Scope Z_scope.

(** ** Platform types *)

(** [std::thread::id]: only equality is used. *)
Definition thread_id := nat.

(** [HRESULT] is the 32-bit signed status of the COM calls the header makes
    (the add and remove methods, [QueryInterface]); [S_OK] is zero and the failure
    codes are the negative ones. *)
Definition HRESULT := Z.
Definition S_OK : HRESULT := 0.
Definition S_FALSE : HRESULT := 1.
Definition E_FAIL : HRESULT := -2147467259.
Definition SUCCEEDED (hr : HRESULT) : bool := 0 <=? hr.
Definition FAILED (hr : HRESULT) : bool := hr <? 0.

(** [EventRegistrationToken] wraps one 64-bit integer. *)
Definition EventRegistrationToken := Z.

(** How the two checking macros of the header are compiled.  [assert] comes
    from [<cassert>]: it terminates the process on a false condition unless
    [NDEBUG] is defined, in which case it expands to nothing.  [EXPECT_TRUE] is
    used by [Set] but defined nowhere in the header; GoogleTest's macro of that
    name records a failure and lets execution continue, which is what the
    guard written right behind it in [Set] is for.  The flag
    [EXPECT_TRUE_fatal] covers a macro that terminates instead. *)
Record Config : Type := {
  NDEBUG : bool;
  EXPECT_TRUE_fatal : bool
}.

(** The build the header is written for: assertions compiled in, GoogleTest
    expectations. *)
Definition debug_build : Config :=
  {| NDEBUG := false; EXPECT_TRUE_fatal := false |}.

Definition release_build : Config :=
  {| NDEBUG := true; EXPECT_TRUE_fatal := false |}.

(** What a call leaves behind outside the objects: calls on the wake
    primitive and lines on the diagnostic streams. *)
Inductive Event : Type :=
| EvPumpMessages (timeout_ms : Z)
| EvNotifyOne
| EvCerr (msg : string)
| EvExpectFailure (msg : string).

(** ** SequenceCheckerImpl *)

Record SequenceCheckerImpl : Type := { id_ : thread_id }.

Definition CalledOnValidSequence (c : SequenceCheckerImpl) (current : thread_id) : bool :=
  Nat.eqb (id_ c) current.

(** ** EventPumper *)

(** The mutex and the condition variable carry no data of their own; the
    blocking they implement is the function [wait_for] below. *)
Record EventPumper : Type := { stop_pump_ : bool }.

Definition EventPumper_new : EventPumper := {| stop_pump_ := false |}.

(** [constexpr double kFutureTimeout = 30], converted to the [int timeout_ms]
    parameter at the call. *)
Definition kFutureTimeout : Z := 30.

(** The sender of an event, as far as the holder uses it: what its add method
    answers and which token it hands out, and what its remove method answers. *)
Record Sender : Type := {
  AddMethod_hr : HRESULT;
  AddMethod_token : EventRegistrationToken;
  RemoveMethod_hr : HRESULT
}.

Section Holder.

(** The template parameter [Result] and the string [typeid(Result).name()]. *)
Variable Result : Type.
Variable Result_name : string.

(** ** EventResultHolder *)

Record EventResultHolder : Type := {
  sequence_checker_ : SequenceCheckerImpl;
  result_ : option Result;
  waiting_ : bool;
  sender_ : Sender;
  token_ : EventRegistrationToken
}.

(** One holder, the global [loop_pumper] it shares with every other holder of
    the process, and the diagnostics produced so far. *)
Record World : Type := {
  holder : EventResultHolder;
  loop_pumper : EventPumper;
  trace : list Event
}.

(** ** Computations *)

Inductive Outcome (A : Type) : Type :=
| Returns (a : A) (w : World)
| Aborts (expr : string) (w : World)
| Undefined (w : World).

Arguments Returns {A} a w.
Arguments Aborts {A} expr w.
Arguments Undefined {A} w.

Definition world_of {A : Type} (o : Outcome A) : World :=
  match o with
  | Returns _ w => w
  | Aborts _ w => w
  | Undefined w => w
  end.

Definition M (A : Type) : Type := World -> Outcome A.

Definition ret {A : Type} (a : A) : M A := fun w => Returns a w.

Definition bind {A B : Type} (m : M A) (f : A -> M B) : M B :=
  fun w =>
    match m w with
    | Returns a w' => f a w'
    | Aborts e w' => Aborts e w'
    | Undefined w' => Undefined w'
    end.

Notation "x <- m ;; k" := (bind m (fun x => k))
  (at level 61, m at next level, right associativity).
Notation "m ;; k" := (bind m (fun _ => k))
  (at level 61, right associativity).

Definition abort {A : Type} (expr : string) : M A := fun w => Aborts expr w.
Definition undefined {A : Type} : M A := fun w => Undefined w.

Definition emit (e : Event) : M unit :=
  fun w => Returns tt {| holder := holder w;
                         loop_pumper := loop_pumper w;
                         trace := trace w ++ [e] |}.

Definition get_result : M (option Result) := fun w => Returns (result_ (holder w)) w.
Definition get_waiting : M bool := fun w => Returns (waiting_ (holder w)) w.

Definition set_waiting (b : bool) : M unit :=
  fun w => Returns tt
    {| holder := {| sequence_checker_ := sequence_checker_ (holder w);
                    result_ := result_ (holder w);
                    waiting_ := b;
                    sender_ := sender_ (holder w);
                    token_ := token_ (holder w) |};
       loop_pumper := loop_pumper w;
       trace := trace w |}.

(** [result_.emplace(args...)]. *)
Definition emplace (args : Result) : M unit :=
  fun w => Returns tt
    {| holder := {| sequence_checker_ := sequence_checker_ (holder w);
                    result_ := Some args;
                    waiting_ := waiting_ (holder w);
                    sender_ := sender_ (holder w);
                    token_ := token_ (holder w) |};
       loop_pumper := loop_pumper w;
       trace := trace w |}.

Definition has_value (r : option Result) : bool :=
  match r with Some _ => true | None => false end.

(** ** The checking macros *)

Definition assert (cfg : Config) (cond : bool) (expr : string) : M unit :=
  if NDEBUG cfg then ret tt
  else if cond then ret tt
  else abort expr.

Definition EXPECT_TRUE (cfg : Config) (cond : bool) (msg : string) : M unit :=
  if cond then ret tt
  else emit (EvExpectFailure msg) ;;
       if EXPECT_TRUE_fatal cfg then abort msg else ret tt.

Definition VERIFY_SEQUENCE_CALL (cfg : Config) (current : thread_id) : M unit :=
  fun w =>
    assert cfg (CalledOnValidSequence (sequence_checker_ (holder w)) current)
           "(sequence_checker_).CalledOnValidSequence()" w.

(** ** EventPumper::StopPump *)

Definition StopPump : M unit :=
  fun w => Returns tt {| holder := holder w;
                         loop_pumper := {| stop_pump_ := true |};
                         trace := trace w ++ [EvNotifyOne] |}.

(** ** EventResultHolder::Set *)

Definition Set_ (cfg : Config) (current : thread_id) (args : Result) : M unit :=
  VERIFY_SEQUENCE_CALL cfg current ;;
  r <- get_result ;;
  EXPECT_TRUE cfg (negb (has_value r)) "FutureEvent::Set can only be called once." ;;
  r <- get_result ;;
  if has_value r then ret tt
  else
    emplace args ;;
    wt <- get_waiting ;;
    if wt then StopPump else ret tt.

(** ** EventPumper::PumpMessagesWithTimeout *)

(** What other parties do to the shared state while a thread is blocked in the
    pump: the registered handler delivers its payload through [Set], or some
    other holder of the process signals the shared pumper. *)
Inductive EnvAction : Type :=
| EnvSet (caller : thread_id) (args : Result)
| EnvStopPump.

Definition run_env (cfg : Config) (a : EnvAction) : M unit :=
  match a with
  | EnvSet caller args => Set_ cfg caller args
  | EnvStopPump => StopPump
  end.

(** [cond_.wait_for(lock, timeout, pred)]: the predicate is tested first and
    after every wake-up; the call returns as soon as it holds, and otherwise
    when the timeout elapses, which is when the environment has nothing more
    to do within the window. *)
Fixpoint wait_for (cfg : Config) (env : list EnvAction) : M unit :=
  fun w =>
    if stop_pump_ (loop_pumper w) then Returns tt w
    else
      match env with
      | [] => Returns tt w
      | a :: env' => (run_env cfg a ;; wait_for cfg env') w
      end.

Definition PumpMessagesWithTimeout (cfg : Config) (timeout_ms : Z)
    (env : list EnvAction) : M unit :=
  emit (EvPumpMessages timeout_ms) ;;
  wait_for cfg env.

(** ** EventResultHolder::Wait *)

Definition Wait (cfg : Config) (current : thread_id) (env : list EnvAction) : M bool :=
  VERIFY_SEQUENCE_CALL cfg current ;;
  wt <- get_waiting ;;
  assert cfg (negb wt) "!waiting_" ;;
  wt <- get_waiting ;;
  if wt then ret false
  else
    r <- get_result ;;
    if has_value r then ret true
    else
      set_waiting true ;;
      PumpMessagesWithTimeout cfg kFutureTimeout env ;;
      set_waiting false ;;
      r <- get_result ;;
      ret (has_value r).

(** ** EventResultHolder::TryGet and Get *)

(** A [Result*] produced by [TryGet]: null, or the address of the value held
    in [result_]. *)
Inductive ResultPtr : Type :=
| nullptr
| addressof_result.

(** Taking the address of the value held in [result_]: reading through an
    empty optional is undefined. *)
Definition addressof_deref_result : M ResultPtr :=
  r <- get_result ;;
  match r with
  | Some _ => ret addressof_result
  | None => undefined
  end.

Definition TryGet (cfg : Config) (current : thread_id) (env : list EnvAction)
    : M ResultPtr :=
  b <- Wait cfg current env ;;
  if b then addressof_deref_result else ret nullptr.

(** Dereferencing a pointer obtained from [TryGet]. *)
Definition deref (p : ResultPtr) : M Result :=
  match p with
  | nullptr => undefined
  | addressof_result =>
      r <- get_result ;;
      match r with
      | Some v => ret v
      | None => undefined
      end
  end.

Definition timeout_message : string :=
  "Timed out or interrupted waiting for a result of type " ++ Result_name.

Definition Get (cfg : Config) (current : thread_id) (env : list EnvAction)
    : M Result :=
  result <- TryGet cfg current env ;;
  match result with
  | nullptr => emit (EvCerr timeout_message)
  | addressof_result => ret tt
  end ;;
  deref result.

(** ** EventResultHolder::IsReady *)

Definition IsReady : M bool :=
  r <- get_result ;;
  ret (has_value r).

(** ** The constructor *)

(** The members are initialised ([sequence_checker_] with the constructing
    thread, [result_] empty, [waiting_] false, [sender_] from the argument),
    the add method is called, storing its token in [token_], and the status it
    returned is asserted. *)
Definition EventResultHolder_new (cfg : Config) (current : thread_id)
    (sender : Sender) (pumper : EventPumper) (tr : list Event) : Outcome unit :=
  let h := {| sequence_checker_ := {| id_ := current |};
              result_ := None;
              waiting_ := false;
              sender_ := sender;
              token_ := AddMethod_token sender |} in
  let hr := AddMethod_hr sender in
  assert cfg (negb (hr =? 0)) "(hr)"
         {| holder := h; loop_pumper := pumper; trace := tr |}.

(** ** Sequences of calls *)

Inductive Op : Type :=
| OpSet (current : thread_id) (args : Result)
| OpWait (current : thread_id) (env : list EnvAction)
| OpTryGet (current : thread_id) (env : list EnvAction)
| OpGet (current : thread_id) (env : list EnvAction)
| OpIsReady
| OpPumpMessagesWithTimeout (timeout_ms : Z) (env : list EnvAction)
| OpStopPump.

Definition run_op (cfg : Config) (op : Op) : M unit :=
  match op with
  | OpSet t args => Set_ cfg t args
  | OpWait t env => Wait cfg t env ;; ret tt
  | OpTryGet t env => TryGet cfg t env ;; ret tt
  | OpGet t env => Get cfg t env ;; ret tt
  | OpIsReady => IsReady ;; ret tt
  | OpPumpMessagesWithTimeout ms env => PumpMessagesWithTimeout cfg ms env
  | OpStopPump => StopPump
  end.

(** The states a run goes through, one after each call; a call that does not
    return ends the run with the state it stopped in. *)
Fixpoint trajectory (cfg : Config) (ops : list Op) (w : World) : list World :=
  match ops with
  | [] => []
  | op :: ops' =>
      match run_op cfg op w with
      | Returns _ w' => w' :: trajectory cfg ops' w'
      | Aborts _ w' => [w']
      | Undefined w' => [w']
      end
  end.


(** The worlds that the branches of [Set] and [Get] produce. *)
Definition logged (e : Event) (w : World) : World :=
  {| holder := holder w; loop_pumper := loop_pumper w; trace := trace w ++ [e] |}.

Definition stored (args : Result) (w : World) : World :=
  world_of (emplace args w).

Definition signalled (w : World) : World :=
  world_of (StopPump w).

Definition set_once_message : string :=
  "FutureEvent::Set can only be called once.".

(** The sequence check lets a call through: it is compiled out, or the call is
    made on the thread that constructed the holder. *)
Definition sequence_ok (cfg : Config) (current : thread_id) (w : World) : bool :=
  NDEBUG cfg || CalledOnValidSequence (sequence_checker_ (holder w)) current.

Definition is_fatal {A : Type} (o : Outcome A) : bool :=
  match o with
  | Aborts _ _ => true
  | _ => false
  end.

Definition stop_requested (w : World) : bool := stop_pump_ (loop_pumper w).

Definition result_of (w : World) : option Result := result_ (holder w).

(** Number of wake-ups sent through the pumper so far. *)
Definition notifications (w : World) : nat :=
  List.length (List.filter
                 (fun e => match e with EvNotifyOne => true | _ => false end)
                 (trace w)).

(** Number of blocking waits entered so far. *)
Definition pumps (w : World) : nat :=
  List.length (List.filter
                 (fun e => match e with EvPumpMessages _ => true | _ => false end)
                 (trace w)).

(** The slow path of [Wait], from [waiting_ = true] to the final test. *)
Definition Wait_blocking (cfg : Config) (env : list EnvAction) : M bool :=
  set_waiting true ;;
  PumpMessagesWithTimeout cfg kFutureTimeout env ;;
  set_waiting false ;;
  r <- get_result ;;
  ret (has_value r).

Definition sequence_message : string :=
  "(sequence_checker_).CalledOnValidSequence()".

(** Position [i] of a list of states is a step from an empty result slot to a
    filled one. *)
Definition unset_to_set (states : list World) (i : nat) : Prop :=
  exists wi wi' v,
    nth_error states i = Some wi /\
    nth_error states (S i) = Some wi' /\
    result_of wi = None /\
    result_of wi' = Some v.

(** ** Monotonicity of the two write-once pieces of state

    [advances w w'] relates a state to a later one: a result that is set keeps
    its value, and a stop request that is set stays set. *)
Definition advances (w w' : World) : Prop :=
  (forall v, result_of w = Some v -> result_of w' = Some v) /\
  (stop_requested w = true -> stop_requested w' = true).

Definition monotone {A : Type} (m : M A) : Prop :=
  forall w, advances w (world_of (m w)).

(** ** Runs as one computation *)

Fixpoint run_ops (cfg : Config) (ops : list Op) : M unit :=
  match ops with
  | [] => ret tt
  | op :: ops' => run_op cfg op ;; run_ops cfg ops'
  end.

(** ** Calls into the sender *)

(** The remove method of [sender_], called with [token_]; the holder sees only
    the status it answers. *)
Definition RemoveMethod : M HRESULT :=
  fun w => Returns (RemoveMethod_hr (sender_ (holder w))) w.

(** An [assert] whose argument is a call returning a status: with [NDEBUG] the
    call is not made at all, otherwise it is made and its status is tested
    for being non-zero. *)
Definition assert_call (cfg : Config) (call : M HRESULT) (expr : string) : M unit :=
  if NDEBUG cfg then ret tt
  else
    hr <- call ;;
    if negb (hr =? 0) then ret tt else abort expr.

(** ** The handler registered by the constructor *)

(** What one invocation of the handler meets outside the holder: the status
    [QueryInterface] answers on the notifying sender, whether the pointer it
    produced equals [sender_], and the callback given to the constructor, if
    there is one.  The sender checks are those of every event type but [int],
    for which the class cannot be instantiated anyway. *)
Record Invocation : Type := {
  QueryInterface_hr : HRESULT;
  same_sender : bool;
  callback : option (Result -> M unit)
}.

Definition QueryInterface (inv : Invocation) : M HRESULT :=
  fun w => Returns (QueryInterface_hr inv) w.

Definition Handler (cfg : Config) (current : thread_id) (inv : Invocation)
    (got_args : Result) : M HRESULT :=
  assert_call cfg (QueryInterface inv) "got_sender->QueryInterface" ;;
  assert cfg (same_sender inv) "sender_ == got_sender_type" ;;
  Set_ cfg current got_args ;;
  match callback inv with
  | Some f => f got_args
  | None => ret tt
  end ;;
  assert_call cfg RemoveMethod "RemoveMethod" ;;
  ret 1.

(** ** The destructor *)

(** The remove method is called and its status dropped; then [result_] is
    asserted. *)
Definition EventResultHolder_delete (cfg : Config) : M unit :=
  RemoveMethod ;;
  r <- get_result ;;
  assert cfg (has_value r) "result_".

(** ** Relations kept by every step *)

(** [m] moves every state to one related to it by [R], however it ends. *)
Definition keeps {A : Type} (R : World -> World -> Prop) (m : M A) : Prop :=
  forall w, R w (world_of (m w)).

(** The members fixed at construction are the same and the diagnostics of [w]
    are an initial part of those of [w']. *)
Definition same_binding (w w' : World) : Prop :=
  sequence_checker_ (holder w') = sequence_checker_ (holder w) /\
  sender_ (holder w') = sender_ (holder w) /\
  token_ (holder w') = token_ (holder w) /\
  exists later, trace w' = (trace w ++ later)%list.

Definition same_waiting (w w' : World) : Prop :=
  waiting_ (holder w') = waiting_ (holder w).

Definition returns {A : Type} (o : Outcome A) : bool :=
  match o with
  | Returns _ _ => true
  | _ => false
  end.

End Holder.

Arguments sequence_checker_ {Result} _.
Arguments result_ {Result} _.
Arguments waiting_ {Result} _.
Arguments sender_ {Result} _.
Arguments token_ {Result} _.
Arguments holder {Result} _.
Arguments loop_pumper {Result} _.
Arguments trace {Result} _.
Arguments Returns {Result A} a w.
Arguments Aborts {Result A} expr w.
Arguments Undefined {Result A} w.
Arguments world_of {Result A} o.
Arguments ret {Result A} a _.
Arguments bind {Result A B} m f _.
Arguments abort {Result A} expr _.
Arguments undefined {Result A} _.
Arguments emit {Result} e _.
Arguments get_result {Result} _.
Arguments get_waiting {Result} _.
Arguments set_waiting {Result} b _.
Arguments emplace {Result} args _.
Arguments has_value {Result} r.
Arguments assert {Result} cfg cond expr _.
Arguments EXPECT_TRUE {Result} cfg cond msg _.
Arguments VERIFY_SEQUENCE_CALL {Result} cfg current _.
Arguments StopPump {Result} _.
Arguments Set_ {Result} cfg current args _.
Arguments EnvSet {Result} caller args.
Arguments EnvStopPump {Result}.
Arguments run_env {Result} cfg a _.
Arguments wait_for {Result} cfg env _.
Arguments PumpMessagesWithTimeout {Result} cfg timeout_ms env _.
Arguments Wait {Result} cfg current env _.
Arguments addressof_deref_result {Result} _.
Arguments TryGet {Result} cfg current env _.
Arguments deref {Result} p _.
Arguments Get {Result} Result_name cfg current env _.
Arguments IsReady {Result} _.
Arguments OpSet {Result} current args.
Arguments OpWait {Result} current env.
Arguments OpTryGet {Result} current env.
Arguments OpGet {Result} current env.
Arguments OpIsReady {Result}.
Arguments OpPumpMessagesWithTimeout {Result} timeout_ms env.
Arguments OpStopPump {Result}.
Arguments run_op {Result} Result_name cfg op _.
Arguments trajectory {Result} Result_name cfg ops w.
Arguments logged {Result} e w.
Arguments stored {Result} args w.
Arguments signalled {Result} w.
Arguments sequence_ok {Result} cfg current w.
Arguments is_fatal {Result A} o.
Arguments stop_requested {Result} w.
Arguments result_of {Result} w.
Arguments notifications {Result} w.
Arguments pumps {Result} w.
Arguments advances {Result} w w'.
Arguments monotone {Result A} m.
Arguments Wait_blocking {Result} cfg env _.
Arguments unset_to_set {Result} states i.
Arguments run_ops {Result} Result_name cfg ops _.
Arguments RemoveMethod {Result} _.
Arguments assert_call {Result} cfg call expr _.
Arguments QueryInterface_hr {Result} _.
Arguments same_sender {Result} _.
Arguments callback {Result} _.
Arguments QueryInterface {Result} inv _.
Arguments Handler {Result} cfg current inv got_args _.
Arguments EventResultHolder_delete {Result} cfg _.
Arguments keeps {Result A} R m.
Arguments same_binding {Result} w w'.
Arguments same_waiting {Result} w w'.
Arguments returns {Result A} o.

Notation "x <- m ;; k" := (bind m (fun x => k))
  (at level 61, m at next level, right associativity).
Notation "m ;; k" := (bind m (fun _ => k))
  (at level 61, right associativity).

(** ** Concrete holders

    A holder of integers constructed on thread 0, in the states the examples
    below start from. *)
Definition a_sender (hr : HRESULT) : Sender :=
  {| AddMethod_hr := hr; AddMethod_token := 17; RemoveMethod_hr := S_OK |}.

Definition a_holder (r : option Z) (wt : bool) : EventResultHolder Z :=
  {| sequence_checker_ := {| id_ := 0%nat |};
     result_ := r;
     waiting_ := wt;
     sender_ := a_sender S_FALSE;
     token_ := 17 |}.

Definition a_world (r : option Z) (wt : bool) (stop : bool) : World Z :=
  {| holder := a_holder r wt;
     loop_pumper := {| stop_pump_ := stop |};
     trace := [] |}.

(** A holder whose sender answers a non-zero status to both methods. *)
Definition b_sender : Sender :=
  {| AddMethod_hr := S_FALSE; AddMethod_token := 23; RemoveMethod_hr := S_FALSE |}.

Definition b_world (r : option Z) : World Z :=
  {| holder := {| sequence_checker_ := {| id_ := 0%nat |};
                  result_ := r;
                  waiting_ := false;
                  sender_ := b_sender;
                  token_ := 23 |};
     loop_pumper := {| stop_pump_ := false |};
     trace := [] |}.

(** An invocation of the handler that passes its checks, and one in which
    [QueryInterface] answers [S_OK]. *)
Definition an_invocation : Invocation Z :=
  {| QueryInterface_hr := S_FALSE; same_sender := true; callback := None |}.

Definition an_S_OK_invocation : Invocation Z :=
  {| QueryInterface_hr := S_OK; same_sender := true; callback := None |}.

(** * Properties *)

Section Properties.

Variable Result : Type.
Variable Result_name : string.

Create HintDb mono.

Lemma advances_refl : forall w : World Result, advances w w.
Proof. intro w; split; auto. Qed.

Lemma advances_trans : forall w1 w2 w3 : World Result,
  advances w1 w2 -> advances w2 w3 -> advances w1 w3.
Proof.
  intros w1 w2 w3 [R12 S12] [R23 S23]; split; auto.
Qed.

Lemma monotone_ret : forall (A : Type) (a : A), monotone (@ret Result A a).
Proof. intros A a w; apply advances_refl. Qed.

Lemma monotone_bind {A B : Type} (m : M Result A) (f : A -> M Result B) :
  monotone m -> (forall a, monotone (f a)) -> monotone (bind m f).
Proof.
  intros Hm Hf w. unfold bind.
  specialize (Hm w). destruct (m w) as [a w'|e w'|w']; simpl in *; auto.
  eapply advances_trans; [exact Hm | apply Hf].
Qed.

Lemma monotone_abort : forall (A : Type) (e : string), monotone (@abort Result A e).
Proof. intros A e w; apply advances_refl. Qed.

Lemma monotone_undefined : forall (A : Type), monotone (@undefined Result A).
Proof. intros A w; apply advances_refl. Qed.

Lemma monotone_emit : forall e, monotone (@emit Result e).
Proof. intros e w; split; auto. Qed.

Lemma monotone_get_result : monotone (@get_result Result).
Proof. intro w; apply advances_refl. Qed.

Lemma monotone_get_waiting : monotone (@get_waiting Result).
Proof. intro w; apply advances_refl. Qed.

Lemma monotone_set_waiting : forall b, monotone (@set_waiting Result b).
Proof. intros b w; split; auto. Qed.

Lemma monotone_StopPump : monotone (@StopPump Result).
Proof. intro w; split; auto. Qed.

Lemma monotone_assert : forall cfg c e, monotone (@assert Result cfg c e).
Proof.
  intros cfg c e. unfold assert.
  destruct (NDEBUG cfg); [apply monotone_ret|].
  destruct c; [apply monotone_ret | apply monotone_abort].
Qed.

Lemma monotone_VERIFY_SEQUENCE_CALL : forall cfg t, monotone (@VERIFY_SEQUENCE_CALL Result cfg t).
Proof.
  intros cfg t w. unfold VERIFY_SEQUENCE_CALL. apply monotone_assert.
Qed.

Lemma monotone_EXPECT_TRUE : forall cfg c msg, monotone (@EXPECT_TRUE Result cfg c msg).
Proof.
  intros cfg c msg. unfold EXPECT_TRUE. destruct c; [apply monotone_ret|].
  apply monotone_bind; [apply monotone_emit|]. intros _.
  destruct (EXPECT_TRUE_fatal cfg); [apply monotone_abort | apply monotone_ret].
Qed.

#[local] Hint Resolve monotone_ret monotone_abort monotone_undefined
  monotone_emit monotone_get_result monotone_get_waiting monotone_set_waiting
  monotone_StopPump monotone_assert monotone_VERIFY_SEQUENCE_CALL
  monotone_EXPECT_TRUE : mono.

(** [emplace] is the one place that writes [result_]; [Set] reaches it only
    behind the guard that the slot is empty. *)
Lemma monotone_Set : forall cfg t (args : Result), monotone (Set_ cfg t args).
Proof.
  intros cfg t args. unfold Set_.
  apply monotone_bind; [auto with mono|]. intros _.
  apply monotone_bind; [auto with mono|]. intros r0.
  apply monotone_bind; [auto with mono|]. intros _.
  intro w. unfold bind, get_result.
  destruct (result_ (holder w)) as [v|] eqn:R; simpl.
  - apply advances_refl.
  - unfold get_waiting, emplace; simpl.
    destruct (waiting_ (holder w)); simpl; split; unfold result_of, stop_requested;
      simpl; try rewrite R; try discriminate; auto.
Qed.

Lemma monotone_run_env : forall cfg (a : EnvAction Result), monotone (run_env cfg a).
Proof.
  intros cfg [t args|]; simpl; [apply monotone_Set | apply monotone_StopPump].
Qed.

Lemma monotone_wait_for : forall cfg (env : list (EnvAction Result)),
  monotone (wait_for cfg env).
Proof.
  intros cfg env; induction env as [|a env IH]; intro w; simpl.
  - destruct (stop_pump_ (loop_pumper w)); apply advances_refl.
  - destruct (stop_pump_ (loop_pumper w)); [apply advances_refl|].
    apply (monotone_bind (run_env cfg a) (fun _ => wait_for cfg env)).
    + apply monotone_run_env.
    + intros _; exact IH.
Qed.

Lemma monotone_PumpMessagesWithTimeout : forall cfg ms (env : list (EnvAction Result)),
  monotone (PumpMessagesWithTimeout cfg ms env).
Proof.
  intros cfg ms env. unfold PumpMessagesWithTimeout.
  apply monotone_bind; [auto with mono|]. intros _. apply monotone_wait_for.
Qed.

Lemma monotone_Wait : forall cfg t (env : list (EnvAction Result)),
  monotone (Wait cfg t env).
Proof.
  intros cfg t env. unfold Wait.
  apply monotone_bind; [auto with mono|]. intros _.
  apply monotone_bind; [auto with mono|]. intros wt0.
  apply monotone_bind; [auto with mono|]. intros _.
  apply monotone_bind; [auto with mono|]. intros wt.
  destruct wt; [auto with mono|].
  apply monotone_bind; [auto with mono|]. intros r.
  destruct (has_value r); [auto with mono|].
  apply monotone_bind; [auto with mono|]. intros _.
  apply monotone_bind; [apply monotone_PumpMessagesWithTimeout|]. intros _.
  apply monotone_bind; [auto with mono|]. intros _.
  apply monotone_bind; [auto with mono|]. intros r'. auto with mono.
Qed.

Lemma monotone_TryGet : forall cfg t (env : list (EnvAction Result)),
  monotone (TryGet cfg t env).
Proof.
  intros cfg t env. unfold TryGet.
  apply monotone_bind; [apply monotone_Wait|]. intros b.
  destruct b; [|auto with mono].
  unfold addressof_deref_result.
  apply monotone_bind; [auto with mono|]. intros [v|]; auto with mono.
Qed.

Lemma monotone_deref : forall p, monotone (@deref Result p).
Proof.
  intros [|]; simpl; [auto with mono|].
  apply monotone_bind; [auto with mono|]. intros [v|]; auto with mono.
Qed.

Lemma monotone_Get : forall cfg t (env : list (EnvAction Result)),
  monotone (Get Result_name cfg t env).
Proof.
  intros cfg t env. unfold Get.
  apply monotone_bind; [apply monotone_TryGet|]. intros p.
  apply monotone_bind; [destruct p; auto with mono|]. intros _.
  apply monotone_deref.
Qed.

Lemma monotone_IsReady : monotone (@IsReady Result).
Proof.
  unfold IsReady. apply monotone_bind; [auto with mono|]. intros r; auto with mono.
Qed.

Lemma monotone_run_op : forall cfg (op : Op Result),
  monotone (run_op Result_name cfg op).
Proof.
  intros cfg [t args|t env|t env|t env| |ms env|]; simpl.
  - apply monotone_Set.
  - apply monotone_bind; [apply monotone_Wait|]; intros; auto with mono.
  - apply monotone_bind; [apply monotone_TryGet|]; intros; auto with mono.
  - apply monotone_bind; [apply monotone_Get|]; intros; auto with mono.
  - apply monotone_bind; [apply monotone_IsReady|]; intros; auto with mono.
  - apply monotone_PumpMessagesWithTimeout.
  - apply monotone_StopPump.
Qed.

(** Every state of a run is an advance of the state the run started in. *)
Lemma trajectory_advances : forall cfg (ops : list (Op Result)) w,
  Forall (advances w) (trajectory Result_name cfg ops w).
Proof.
  intros cfg ops; induction ops as [|op ops IH]; intro w; simpl; [constructor|].
  pose proof (monotone_run_op cfg op w) as Hop.
  destruct (run_op Result_name cfg op w) as [[] w'|e w'|w']; simpl in Hop.
  - constructor; [exact Hop|].
    eapply Forall_impl; [|apply IH].
    intros w'' H; eapply advances_trans; eauto.
  - constructor; [exact Hop | constructor].
  - constructor; [exact Hop | constructor].
Qed.

(** The states from position [i] on are the trajectory of the rest of the
    run, started in the state at position [i]. *)
Lemma trajectory_later : forall cfg (ops : list (Op Result)) w i j wi wj,
  (i <= j)%nat ->
  nth_error (w :: trajectory Result_name cfg ops w) i = Some wi ->
  nth_error (w :: trajectory Result_name cfg ops w) j = Some wj ->
  advances wi wj.
Proof.
  intros cfg ops; induction ops as [|op ops IH]; intros w i j wi wj Hij Hi Hj.
  - simpl in *. destruct i as [|i]; destruct j as [|j]; simpl in *;
      try (destruct i; discriminate); try (destruct j; discriminate); try lia.
    inversion Hi; inversion Hj; subst; apply advances_refl.
  - destruct i as [|i].
    + simpl in Hi; inversion Hi; subst wi.
      destruct j as [|j]; simpl in Hj.
      * inversion Hj; subst; apply advances_refl.
      * pose proof (trajectory_advances cfg (op :: ops) w) as F.
        rewrite Forall_forall in F. apply F.
        eapply nth_error_In; exact Hj.
    + destruct j as [|j]; [lia|].
      simpl in Hi, Hj. simpl trajectory in Hi, Hj.
      destruct (run_op Result_name cfg op w) as [[] w'|e w'|w'].
      * apply (IH w' i j); [lia | exact Hi | exact Hj].
      * destruct i as [|i]; destruct j as [|j]; simpl in *;
          try (destruct i; discriminate); try (destruct j; discriminate); try lia.
        inversion Hi; inversion Hj; subst; apply advances_refl.
      * destruct i as [|i]; destruct j as [|j]; simpl in *;
          try (destruct i; discriminate); try (destruct j; discriminate); try lia.
        inversion Hi; inversion Hj; subst; apply advances_refl.
Qed.

(** ** What [Set] and [Wait] compute, branch by branch *)

Lemma Set_unfold : forall cfg t (args : Result) w,
  Set_ cfg t args w =
  if sequence_ok cfg t w then
    match result_ (holder w) with
    | Some _ =>
        if EXPECT_TRUE_fatal cfg
        then Aborts set_once_message (logged (EvExpectFailure set_once_message) w)
        else Returns tt (logged (EvExpectFailure set_once_message) w)
    | None =>
        Returns tt (if waiting_ (holder w)
                    then signalled (stored args w)
                    else stored args w)
    end
  else Aborts sequence_message w.
Proof.
  intros cfg t args w.
  unfold Set_, sequence_ok, VERIFY_SEQUENCE_CALL, assert, EXPECT_TRUE, bind,
    get_result, get_waiting, ret, abort, emit, emplace, StopPump, logged,
    signalled, stored.
  destruct (NDEBUG cfg);
    destruct (CalledOnValidSequence (sequence_checker_ (holder w)) t);
    destruct (result_ (holder w)) as [v|] eqn:R;
    destruct (EXPECT_TRUE_fatal cfg);
    destruct (waiting_ (holder w)) eqn:W;
    simpl; rewrite ?R, ?W; simpl; rewrite ?W; reflexivity.
Qed.

Lemma Wait_unfold : forall cfg t (env : list (EnvAction Result)) w,
  Wait cfg t env w =
  if sequence_ok cfg t w then
    if waiting_ (holder w) then
      if NDEBUG cfg then Returns false w else Aborts "!waiting_" w
    else
      match result_ (holder w) with
      | Some _ => Returns true w
      | None => Wait_blocking cfg env w
      end
  else Aborts sequence_message w.
Proof.
  intros cfg t env w.
  unfold Wait, Wait_blocking, sequence_ok, VERIFY_SEQUENCE_CALL, assert.
  unfold bind at 1 2 3 4 5. unfold get_result, get_waiting, ret, abort.
  destruct (NDEBUG cfg);
    destruct (CalledOnValidSequence (sequence_checker_ (holder w)) t);
    destruct (waiting_ (holder w)) eqn:W;
    destruct (result_ (holder w)) as [v|] eqn:R;
    simpl; rewrite ?W; simpl; rewrite ?R; simpl; reflexivity.
Qed.

(** The slow path returns, and what it returns is whether the slot is filled
    in the state it returns in; [waiting_] is false again there. *)
Lemma Wait_blocking_reports_slot : forall cfg (env : list (EnvAction Result)) w b w',
  Wait_blocking cfg env w = Returns b w' ->
  b = has_value (result_ (holder w')) /\ waiting_ (holder w') = false.
Proof.
  intros cfg env w b w' H. unfold Wait_blocking in H.
  unfold bind at 1 in H. simpl in H.
  unfold bind at 1 in H.
  destruct (PumpMessagesWithTimeout cfg kFutureTimeout env _) as [[] w1|e w1|w1];
    try discriminate.
  unfold bind, set_waiting, get_result, ret in H. simpl in H.
  inversion H; subst. simpl. split; reflexivity.
Qed.

Lemma Wait_reports_slot : forall cfg t (env : list (EnvAction Result)) w b w',
  waiting_ (holder w) = false ->
  Wait cfg t env w = Returns b w' ->
  b = has_value (result_ (holder w')).
Proof.
  intros cfg t env w b w' Hw H. rewrite Wait_unfold, Hw in H.
  destruct (sequence_ok cfg t w); [|discriminate].
  destruct (result_ (holder w)) as [v|] eqn:R.
  - inversion H; subst. rewrite R. reflexivity.
  - apply Wait_blocking_reports_slot in H. tauto.
Qed.

(** [Get] follows the outcome of the [Wait] inside [TryGet]. *)
Lemma Get_after_Wait : forall cfg t (env : list (EnvAction Result)) w,
  Get Result_name cfg t env w =
  match Wait cfg t env w with
  | Returns true w' =>
      match result_ (holder w') with
      | Some v => Returns v w'
      | None => Undefined w'
      end
  | Returns false w' =>
      Undefined (logged (EvCerr (timeout_message Result_name)) w')
  | Aborts e w' => Aborts e w'
  | Undefined w' => Undefined w'
  end.
Proof.
  intros cfg t env w. unfold Get, TryGet.
  unfold bind at 1 2 3.
  destruct (Wait cfg t env w) as [[|] w'|e w'|w']; try reflexivity.
  - unfold addressof_deref_result, bind, get_result.
    destruct (result_ (holder w')) as [v|] eqn:R; simpl; [|reflexivity].
    unfold bind, get_result. rewrite R. reflexivity.
Qed.

(** When [Wait] says true the slot is filled. *)
Lemma Wait_true_slot_set : forall cfg t (env : list (EnvAction Result)) w w',
  Wait cfg t env w = Returns true w' ->
  exists v, result_ (holder w') = Some v.
Proof.
  intros cfg t env w w' H. rewrite Wait_unfold in H.
  destruct (sequence_ok cfg t w); [|discriminate].
  destruct (waiting_ (holder w)).
  - destruct (NDEBUG cfg); discriminate.
  - destruct (result_ (holder w)) as [v|] eqn:R.
    + inversion H; subst. eauto.
    + apply Wait_blocking_reports_slot in H. destruct H as [H _].
      destruct (result_ (holder w')) as [v|]; [eauto | discriminate].
Qed.

(** ** Get *)

(** C1. [Get] does what the [Wait] inside it reports.  When [Wait] reports the
    result set, the slot holds a value and [Get] returns it, in the state
    [Wait] left.  When [Wait] reports it unset, [Get] writes the timeout line
    to [std::cerr] and then dereferences the null pointer it got from
    [TryGet].  For a holder that is not already waiting, the report of [Wait]
    is exactly whether the slot is set once [Wait] is over.  So [Get] returns
    only in a state where the slot holds the value returned. *)
Theorem Get_returns_stored_result_or_dereferences_unset :
  forall cfg t (env : list (EnvAction Result)) w,
    match Wait cfg t env w with
    | Returns b w' =>
        (waiting_ (holder w) = false -> b = has_value (result_ (holder w'))) /\
        (if b
         then exists v, result_ (holder w') = Some v /\
                        Get Result_name cfg t env w = Returns v w'
         else Get Result_name cfg t env w =
              Undefined (logged (EvCerr (timeout_message Result_name)) w'))
    | Aborts e w' => Get Result_name cfg t env w = Aborts e w'
    | Undefined w' => Get Result_name cfg t env w = Undefined w'
    end /\
    (forall v w', Get Result_name cfg t env w = Returns v w' ->
                  result_ (holder w') = Some v).
Proof.
  intros cfg t env w. split.
  - pose proof (Get_after_Wait cfg t env w) as G.
    destruct (Wait cfg t env w) as [b w'|e w'|w'] eqn:HW; try exact G.
    split.
    + intro Hw. eapply Wait_reports_slot; eauto.
    + destruct b; [|exact G].
      destruct (Wait_true_slot_set _ _ _ _ _ HW) as [v R].
      exists v. rewrite R in G. auto.
  - intros v w' G. rewrite Get_after_Wait in G.
    destruct (Wait cfg t env w) as [[|] w1|e w1|w1]; try discriminate.
    destruct (result_ (holder w1)) as [v1|] eqn:R; [|discriminate].
    inversion G; subst. exact R.
Qed.

(** ** The constructor *)

Lemma EventResultHolder_new_fatal : forall cfg t sender pumper tr,
  is_fatal (EventResultHolder_new Result cfg t sender pumper tr) =
  negb (NDEBUG cfg) && (AddMethod_hr sender =? 0).
Proof.
  intros cfg t sender pumper tr. unfold EventResultHolder_new, assert.
  destruct (NDEBUG cfg); simpl; [reflexivity|].
  destruct (AddMethod_hr sender =? 0); reflexivity.
Qed.

(** ** Set *)

(** C3, as the code has it.  A [Set] on a holder whose slot is already filled
    is rejected whatever the payload: holder and pumper are left as they were.
    The call is fatal exactly when one of its two checks terminates the
    process, the sequence assertion (wrong thread, assertions compiled in) or
    an [EXPECT_TRUE] that is itself fatal; with GoogleTest's [EXPECT_TRUE] on
    the owning thread the failure is recorded and the call returns at the
    guard. *)
Theorem Set_twice_rejected_without_storing :
  forall cfg t (args : Result) w v,
    result_ (holder w) = Some v ->
    holder (world_of (Set_ cfg t args w)) = holder w /\
    loop_pumper (world_of (Set_ cfg t args w)) = loop_pumper w /\
    is_fatal (Set_ cfg t args w) =
      negb (sequence_ok cfg t w) || EXPECT_TRUE_fatal cfg /\
    (sequence_ok cfg t w = true -> EXPECT_TRUE_fatal cfg = false ->
     Set_ cfg t args w = Returns tt (logged (EvExpectFailure set_once_message) w)).
Proof.
  intros cfg t args w v R. rewrite Set_unfold, R.
  destruct (sequence_ok cfg t w); destruct (EXPECT_TRUE_fatal cfg); simpl;
    repeat split; auto; discriminate.
Qed.

(** C7. A [Set] on a holder whose slot is empty, called where the sequence
    check lets it through, returns with the payload stored in [result_]; it
    calls [StopPump], which sets the stop request and notifies once, when
    [waiting_] is true, and does not touch the pumper when [waiting_] is
    false. *)
Theorem Set_stores_payload_and_signals_iff_waiting :
  forall cfg t (args : Result) w,
    sequence_ok cfg t w = true ->
    result_ (holder w) = None ->
    exists w',
      Set_ cfg t args w = Returns tt w' /\
      result_ (holder w') = Some args /\
      waiting_ (holder w') = waiting_ (holder w) /\
      (notifications w' = S (notifications w) <-> waiting_ (holder w) = true) /\
      (waiting_ (holder w) = true -> stop_requested w' = true) /\
      (waiting_ (holder w) = false ->
       notifications w' = notifications w /\ loop_pumper w' = loop_pumper w).
Proof.
  intros cfg t args w Hseq R. rewrite Set_unfold, Hseq, R.
  eexists; split; [reflexivity|].
  unfold notifications, stop_requested, signalled, stored, emplace, StopPump.
  destruct (waiting_ (holder w)) eqn:W; simpl.
  - rewrite filter_app, length_app; simpl.
    repeat split; auto; try discriminate; lia.
  - repeat split; auto; try discriminate; try lia.
Qed.

(** C10. A [Set] on a holder whose slot is already filled, called where the
    sequence check lets it through and with an [EXPECT_TRUE] that lets
    execution continue, returns at the guard: the slot keeps its value,
    [waiting_] is as it was, the whole holder and the pumper are unchanged and
    no notification is sent, whether [waiting_] is true or not. *)
Theorem Set_on_set_result_returns_early_unchanged :
  forall cfg t (args : Result) w v,
    sequence_ok cfg t w = true ->
    EXPECT_TRUE_fatal cfg = false ->
    result_ (holder w) = Some v ->
    exists w',
      Set_ cfg t args w = Returns tt w' /\
      result_ (holder w') = Some v /\
      waiting_ (holder w') = waiting_ (holder w) /\
      holder w' = holder w /\
      loop_pumper w' = loop_pumper w /\
      notifications w' = notifications w.
Proof.
  intros cfg t args w v Hseq Hexp R. rewrite Set_unfold, Hseq, Hexp, R.
  eexists; split; [reflexivity|].
  unfold notifications, logged; simpl.
  rewrite filter_app, length_app; simpl.
  repeat split; auto.
Qed.

(** ** Wait *)

(** C5. On a holder that is not waiting and whose slot is filled, a [Wait]
    that passes the sequence check returns true in the very state it was
    called in: nothing is modified and the pump is not entered, whatever the
    environment would have done. *)
Theorem Wait_returns_true_at_once_when_result_set :
  forall cfg t (env : list (EnvAction Result)) w v,
    sequence_ok cfg t w = true ->
    waiting_ (holder w) = false ->
    result_ (holder w) = Some v ->
    Wait cfg t env w = Returns true w.
Proof.
  intros cfg t env w v Hseq W R. rewrite Wait_unfold, Hseq, W, R. reflexivity.
Qed.

(** C6, as the code has it.  A [Wait] on a holder whose [waiting_] is true is
    rejected without a second blocking wait: the pump is not entered and the
    state the call ends in is the state it was called in.  The rejection is
    fatal exactly when assertions are compiled in; with assertions compiled
    out the call returns false. *)
Theorem Wait_while_waiting_rejected_without_blocking :
  forall cfg t (env : list (EnvAction Result)) w,
    waiting_ (holder w) = true ->
    world_of (Wait cfg t env w) = w /\
    pumps (world_of (Wait cfg t env w)) = pumps w /\
    is_fatal (Wait cfg t env w) = negb (NDEBUG cfg) /\
    (NDEBUG cfg = true -> Wait cfg t env w = Returns false w).
Proof.
  intros cfg t env w W. rewrite Wait_unfold, W. unfold sequence_ok.
  destruct (NDEBUG cfg); simpl.
  - repeat split; auto.
  - destruct (CalledOnValidSequence (sequence_checker_ (holder w)) t); simpl;
      repeat split; auto; discriminate.
Qed.

(** C9, as the code has it.  On a holder whose [waiting_] is true, [Wait] is
    decided before the result slot is looked at, so the outcome is the same
    whether the slot is filled or not, and [waiting_] stays true.  With
    assertions compiled out the call returns false; with assertions compiled
    in it is stopped by a failed assertion instead. *)
Theorem Wait_while_waiting_ignores_result :
  forall cfg t (env : list (EnvAction Result)) w,
    waiting_ (holder w) = true ->
    Wait cfg t env w =
      (if NDEBUG cfg then Returns false w
       else Aborts (if CalledOnValidSequence (sequence_checker_ (holder w)) t
                    then "!waiting_" else sequence_message) w) /\
    waiting_ (holder (world_of (Wait cfg t env w))) = true.
Proof.
  intros cfg t env w W. rewrite Wait_unfold, W. unfold sequence_ok.
  destruct (NDEBUG cfg); simpl.
  - auto.
  - destruct (CalledOnValidSequence (sequence_checker_ (holder w)) t); simpl; auto.
Qed.

(** ** Runs *)

(** C4. Along every run of [Set], [Wait], [TryGet], [Get] and [IsReady] (and
    of the pumper's own two operations), from any state: a result that is set
    in some state is set, with the same value, in every later state; hence
    there is at most one step from unset to set. *)
Theorem result_is_written_at_most_once :
  forall cfg (ops : list (Op Result)) w,
    (forall i j wi wj v,
        (i <= j)%nat ->
        nth_error (w :: trajectory Result_name cfg ops w) i = Some wi ->
        nth_error (w :: trajectory Result_name cfg ops w) j = Some wj ->
        result_ (holder wi) = Some v ->
        result_ (holder wj) = Some v) /\
    (forall i j,
        unset_to_set (w :: trajectory Result_name cfg ops w) i ->
        unset_to_set (w :: trajectory Result_name cfg ops w) j ->
        i = j).
Proof.
  intros cfg ops w.
  assert (P : forall i j wi wj v,
             (i <= j)%nat ->
             nth_error (w :: trajectory Result_name cfg ops w) i = Some wi ->
             nth_error (w :: trajectory Result_name cfg ops w) j = Some wj ->
             result_ (holder wi) = Some v ->
             result_ (holder wj) = Some v).
  { intros i j wi wj v Hij Hi Hj R.
    destruct (trajectory_later cfg ops w i j wi wj Hij Hi Hj) as [HR _].
    apply HR; exact R. }
  split; [exact P|].
  intros i j (wi & wi' & v & Hi & HSi & Ri & RSi) (wj & wj' & u & Hj & HSj & Rj & RSj).
  unfold result_of in *.
  destruct (Nat.lt_trichotomy i j) as [L|[E|L]]; [|exact E|].
  - assert (X : result_ (holder wj) = Some v)
      by (apply (P (S i) j wi' wj v); auto; lia).
    congruence.
  - assert (X : result_ (holder wi) = Some u)
      by (apply (P (S j) i wj' wi u); auto; lia).
    congruence.
Qed.

(** C8. [StopPump] sets the stop request, and along every run of
    [PumpMessagesWithTimeout] and [StopPump] (and of the holder's operations,
    which reach the pumper only through these two) a stop request that is set
    in some state is set in every later state. *)
Theorem stop_request_is_never_reset :
  forall cfg (ops : list (Op Result)) (w : World Result),
    stop_requested (world_of (StopPump w)) = true /\
    (forall i j wi wj,
        (i <= j)%nat ->
        nth_error (w :: trajectory Result_name cfg ops w) i = Some wi ->
        nth_error (w :: trajectory Result_name cfg ops w) j = Some wj ->
        stop_requested wi = true ->
        stop_requested wj = true).
Proof.
  intros cfg ops w. split; [reflexivity|].
  intros i j wi wj Hij Hi Hj S.
  destruct (trajectory_later cfg ops w i j wi wj Hij Hi Hj) as [_ HS].
  apply HS; exact S.
Qed.

(** ** Relations kept by every operation

    A relation between states that is reflexive and transitive and holds
    across the few places where the state is written holds across every
    operation of the holder. *)
Section Kept.

Variable R : World Result -> World Result -> Prop.
Hypothesis R_refl : forall w, R w w.
Hypothesis R_trans : forall w1 w2 w3, R w1 w2 -> R w2 w3 -> R w1 w3.
Hypothesis R_emit : forall e, keeps R (emit e).
Hypothesis R_emplace : forall a, keeps R (emplace a).
Hypothesis R_StopPump : keeps R StopPump.

Lemma keeps_ret : forall (A : Type) (a : A), keeps R (@ret Result A a).
Proof. intros A a w; apply R_refl. Qed.

Lemma keeps_abort : forall (A : Type) e, keeps R (@abort Result A e).
Proof. intros A e w; apply R_refl. Qed.

Lemma keeps_undefined : forall (A : Type), keeps R (@undefined Result A).
Proof. intros A w; apply R_refl. Qed.

Lemma keeps_bind {A B : Type} (m : M Result A) (f : A -> M Result B) :
  keeps R m -> (forall a, keeps R (f a)) -> keeps R (bind m f).
Proof.
  intros Hm Hf w. unfold bind.
  specialize (Hm w). destruct (m w) as [a w'|e w'|w']; simpl in *; auto.
  eapply R_trans; [exact Hm | apply Hf].
Qed.

Lemma keeps_get_result : keeps R (@get_result Result).
Proof. intro w; apply R_refl. Qed.

Lemma keeps_get_waiting : keeps R (@get_waiting Result).
Proof. intro w; apply R_refl. Qed.

Lemma keeps_assert : forall cfg c e, keeps R (@assert Result cfg c e).
Proof.
  intros cfg c e. unfold assert.
  destruct (NDEBUG cfg); [apply keeps_ret|].
  destruct c; [apply keeps_ret | apply keeps_abort].
Qed.

Lemma keeps_VERIFY_SEQUENCE_CALL : forall cfg t,
  keeps R (@VERIFY_SEQUENCE_CALL Result cfg t).
Proof. intros cfg t w. unfold VERIFY_SEQUENCE_CALL. apply keeps_assert. Qed.

Lemma keeps_EXPECT_TRUE : forall cfg c msg, keeps R (@EXPECT_TRUE Result cfg c msg).
Proof.
  intros cfg c msg. unfold EXPECT_TRUE. destruct c; [apply keeps_ret|].
  apply keeps_bind; [apply R_emit|]. intros _.
  destruct (EXPECT_TRUE_fatal cfg); [apply keeps_abort | apply keeps_ret].
Qed.

Lemma keeps_Set : forall cfg t (args : Result), keeps R (Set_ cfg t args).
Proof.
  intros cfg t args. unfold Set_.
  apply keeps_bind; [apply keeps_VERIFY_SEQUENCE_CALL|]. intros _.
  apply keeps_bind; [apply keeps_get_result|]. intros r0.
  apply keeps_bind; [apply keeps_EXPECT_TRUE|]. intros _.
  apply keeps_bind; [apply keeps_get_result|]. intros r.
  destruct (has_value r); [apply keeps_ret|].
  apply keeps_bind; [apply R_emplace|]. intros _.
  apply keeps_bind; [apply keeps_get_waiting|]. intros wt.
  destruct wt; [apply R_StopPump | apply keeps_ret].
Qed.

Lemma keeps_run_env : forall cfg (a : EnvAction Result), keeps R (run_env cfg a).
Proof.
  intros cfg [t args|]; simpl; [apply keeps_Set | apply R_StopPump].
Qed.

Lemma keeps_wait_for : forall cfg (env : list (EnvAction Result)),
  keeps R (wait_for cfg env).
Proof.
  intros cfg env; induction env as [|a env IH]; intro w; simpl.
  - destruct (stop_pump_ (loop_pumper w)); apply R_refl.
  - destruct (stop_pump_ (loop_pumper w)); [apply R_refl|].
    apply (keeps_bind (run_env cfg a) (fun _ => wait_for cfg env)).
    + apply keeps_run_env.
    + intros _; exact IH.
Qed.

Lemma keeps_PumpMessagesWithTimeout : forall cfg ms (env : list (EnvAction Result)),
  keeps R (PumpMessagesWithTimeout cfg ms env).
Proof.
  intros cfg ms env. unfold PumpMessagesWithTimeout.
  apply keeps_bind; [apply R_emit|]. intros _. apply keeps_wait_for.
Qed.

Lemma keeps_IsReady : keeps R (@IsReady Result).
Proof.
  unfold IsReady. apply keeps_bind; [apply keeps_get_result|].
  intros r; apply keeps_ret.
Qed.

Lemma keeps_assert_call : forall cfg (call : M Result HRESULT) e,
  keeps R call -> keeps R (assert_call cfg call e).
Proof.
  intros cfg call e Hc. unfold assert_call.
  destruct (NDEBUG cfg); [apply keeps_ret|].
  apply keeps_bind; [exact Hc|]. intros hr.
  destruct (negb (hr =? 0)); [apply keeps_ret | apply keeps_abort].
Qed.

Lemma keeps_RemoveMethod : keeps R (@RemoveMethod Result).
Proof. intro w; apply R_refl. Qed.

Lemma keeps_QueryInterface : forall inv, keeps R (@QueryInterface Result inv).
Proof. intros inv w; apply R_refl. Qed.

Lemma keeps_delete : forall cfg, keeps R (@EventResultHolder_delete Result cfg).
Proof.
  intro cfg. unfold EventResultHolder_delete.
  apply keeps_bind; [apply keeps_RemoveMethod|]. intros _.
  apply keeps_bind; [apply keeps_get_result|]. intros r. apply keeps_assert.
Qed.

(** The handler keeps what its callback keeps. *)
Lemma keeps_Handler : forall cfg t (inv : Invocation Result) got_args,
  (forall f, callback inv = Some f -> keeps R (f got_args)) ->
  keeps R (Handler cfg t inv got_args).
Proof.
  intros cfg t inv got_args Hcb. unfold Handler.
  apply keeps_bind; [apply keeps_assert_call, keeps_QueryInterface|]. intros _.
  apply keeps_bind; [apply keeps_assert|]. intros _.
  apply keeps_bind; [apply keeps_Set|]. intros _.
  apply keeps_bind.
  { destruct (callback inv) as [f|]; [apply Hcb; reflexivity | apply keeps_ret]. }
  intros _.
  apply keeps_bind; [apply keeps_assert_call, keeps_RemoveMethod|]. intros _.
  apply keeps_ret.
Qed.

Hypothesis R_set_waiting : forall b, keeps R (set_waiting b).

Lemma keeps_Wait : forall cfg t (env : list (EnvAction Result)),
  keeps R (Wait cfg t env).
Proof.
  intros cfg t env. unfold Wait.
  apply keeps_bind; [apply keeps_VERIFY_SEQUENCE_CALL|]. intros _.
  apply keeps_bind; [apply keeps_get_waiting|]. intros wt0.
  apply keeps_bind; [apply keeps_assert|]. intros _.
  apply keeps_bind; [apply keeps_get_waiting|]. intros wt.
  destruct wt; [apply keeps_ret|].
  apply keeps_bind; [apply keeps_get_result|]. intros r.
  destruct (has_value r); [apply keeps_ret|].
  apply keeps_bind; [apply R_set_waiting|]. intros _.
  apply keeps_bind; [apply keeps_PumpMessagesWithTimeout|]. intros _.
  apply keeps_bind; [apply R_set_waiting|]. intros _.
  apply keeps_bind; [apply keeps_get_result|]. intros r'. apply keeps_ret.
Qed.

Lemma keeps_TryGet : forall cfg t (env : list (EnvAction Result)),
  keeps R (TryGet cfg t env).
Proof.
  intros cfg t env. unfold TryGet.
  apply keeps_bind; [apply keeps_Wait|]. intros b.
  destruct b; [|apply keeps_ret].
  unfold addressof_deref_result.
  apply keeps_bind; [apply keeps_get_result|].
  intros [v|]; [apply keeps_ret | apply keeps_undefined].
Qed.

Lemma keeps_Get : forall cfg t (env : list (EnvAction Result)),
  keeps R (Get Result_name cfg t env).
Proof.
  intros cfg t env. unfold Get.
  apply keeps_bind; [apply keeps_TryGet|]. intros p.
  apply keeps_bind; [destruct p; [apply R_emit | apply keeps_ret]|]. intros _.
  destruct p; simpl; [apply keeps_undefined|].
  apply keeps_bind; [apply keeps_get_result|].
  intros [v|]; [apply keeps_ret | apply keeps_undefined].
Qed.

Lemma keeps_run_op : forall cfg (op : Op Result), keeps R (run_op Result_name cfg op).
Proof.
  intros cfg [t args|t env|t env|t env| |ms env|]; simpl.
  - apply keeps_Set.
  - apply keeps_bind; [apply keeps_Wait|]; intros; apply keeps_ret.
  - apply keeps_bind; [apply keeps_TryGet|]; intros; apply keeps_ret.
  - apply keeps_bind; [apply keeps_Get|]; intros; apply keeps_ret.
  - apply keeps_bind; [apply keeps_IsReady|]; intros; apply keeps_ret.
  - apply keeps_PumpMessagesWithTimeout.
  - apply R_StopPump.
Qed.

Lemma keeps_run_ops : forall cfg (ops : list (Op Result)),
  keeps R (run_ops Result_name cfg ops).
Proof.
  intros cfg ops; induction ops as [|op ops IH]; simpl.
  - apply keeps_ret.
  - apply keeps_bind; [apply keeps_run_op|]. intros _; exact IH.
Qed.

End Kept.

(** The two relations. *)

Lemma same_binding_refl : forall w : World Result, same_binding w w.
Proof.
  intro w; repeat split. exists []. symmetry; apply app_nil_r.
Qed.

Lemma same_binding_trans : forall w1 w2 w3 : World Result,
  same_binding w1 w2 -> same_binding w2 w3 -> same_binding w1 w3.
Proof.
  intros w1 w2 w3 (A1 & B1 & C1 & l1 & T1) (A2 & B2 & C2 & l2 & T2).
  repeat split; try congruence.
  exists (l1 ++ l2)%list. rewrite T2, T1. symmetry; apply app_assoc.
Qed.

Lemma same_binding_emit : forall e, keeps same_binding (@emit Result e).
Proof. intros e w; repeat split. exists [e]; reflexivity. Qed.

Lemma same_binding_emplace : forall a : Result, keeps same_binding (emplace a).
Proof.
  intros a w; repeat split. exists []; simpl. symmetry; apply app_nil_r.
Qed.

Lemma same_binding_StopPump : keeps same_binding (@StopPump Result).
Proof. intro w; repeat split. exists [EvNotifyOne]; reflexivity. Qed.

Lemma same_binding_set_waiting : forall b, keeps same_binding (@set_waiting Result b).
Proof.
  intros b w; repeat split. exists []; simpl. symmetry; apply app_nil_r.
Qed.

Lemma same_waiting_refl : forall w : World Result, same_waiting w w.
Proof. intro w; reflexivity. Qed.

Lemma same_waiting_trans : forall w1 w2 w3 : World Result,
  same_waiting w1 w2 -> same_waiting w2 w3 -> same_waiting w1 w3.
Proof. unfold same_waiting; intros; congruence. Qed.

Lemma same_waiting_emit : forall e, keeps same_waiting (@emit Result e).
Proof. intros e w; reflexivity. Qed.

Lemma same_waiting_emplace : forall a : Result, keeps same_waiting (emplace a).
Proof. intros a w; reflexivity. Qed.

Lemma same_waiting_StopPump : keeps same_waiting (@StopPump Result).
Proof. intro w; reflexivity. Qed.

(** ** TryGet, IsReady and the waiting flag *)

Lemma Set_defined : forall cfg t (args : Result) w w',
  Set_ cfg t args w <> Undefined w'.
Proof.
  intros cfg t args w w'. rewrite Set_unfold.
  destruct (sequence_ok cfg t w); [|discriminate].
  destruct (result_ (holder w)); [|discriminate].
  destruct (EXPECT_TRUE_fatal cfg); discriminate.
Qed.

Lemma wait_for_defined : forall cfg (env : list (EnvAction Result)) w w',
  wait_for cfg env w <> Undefined w'.
Proof.
  intros cfg env; induction env as [|a env IH]; intros w w'; simpl.
  - destruct (stop_pump_ (loop_pumper w)); discriminate.
  - destruct (stop_pump_ (loop_pumper w)); [discriminate|].
    unfold bind. destruct a as [t args|]; simpl.
    + pose proof (Set_defined cfg t args w) as D.
      destruct (Set_ cfg t args w) as [[] w1|e w1|w1];
        [apply IH | discriminate | exfalso; eapply D; reflexivity].
    + apply IH.
Qed.

Lemma Wait_blocking_defined : forall cfg (env : list (EnvAction Result)) w w',
  Wait_blocking cfg env w <> Undefined w'.
Proof.
  intros cfg env w w'. unfold Wait_blocking, PumpMessagesWithTimeout.
  unfold bind at 1. simpl. unfold bind at 1. unfold bind at 1. simpl.
  match goal with |- context [wait_for cfg env ?x] =>
    pose proof (wait_for_defined cfg env x) as D;
    destruct (wait_for cfg env x) as [[] w1|e w1|w1]
  end; [discriminate | discriminate | exfalso; eapply D; reflexivity].
Qed.

Lemma Wait_defined : forall cfg t (env : list (EnvAction Result)) w w',
  Wait cfg t env w <> Undefined w'.
Proof.
  intros cfg t env w w'. rewrite Wait_unfold.
  destruct (sequence_ok cfg t w); [|discriminate].
  destruct (waiting_ (holder w)).
  - destruct (NDEBUG cfg); discriminate.
  - destruct (result_ (holder w)); [discriminate | apply Wait_blocking_defined].
Qed.

(** [TryGet] follows the outcome of its [Wait]. *)
Lemma TryGet_after_Wait : forall cfg t (env : list (EnvAction Result)) w,
  TryGet cfg t env w =
  match Wait cfg t env w with
  | Returns true w' =>
      match result_ (holder w') with
      | Some _ => Returns addressof_result w'
      | None => Undefined w'
      end
  | Returns false w' => Returns nullptr w'
  | Aborts e w' => Aborts e w'
  | Undefined w' => Undefined w'
  end.
Proof.
  intros cfg t env w. unfold TryGet, bind.
  destruct (Wait cfg t env w) as [[|] w'|e w'|w']; try reflexivity.
  unfold addressof_deref_result, bind, get_result.
  destruct (result_ (holder w')); reflexivity.
Qed.

(** X1. [TryGet] never reads through an empty [result_]: it has no undefined
    outcome; a non-null pointer it returns is the address of a filled slot;
    and on a holder that was not already waiting a null pointer means the
    slot is empty when the call returns. *)
Theorem TryGet_never_reads_empty_result :
  forall cfg t (env : list (EnvAction Result)) w,
    (forall w', TryGet cfg t env w <> Undefined w') /\
    (forall p w',
        TryGet cfg t env w = Returns p w' ->
        match p with
        | addressof_result => exists v, result_ (holder w') = Some v
        | nullptr => waiting_ (holder w) = false -> result_ (holder w') = None
        end).
Proof.
  intros cfg t env w. rewrite TryGet_after_Wait.
  pose proof (Wait_defined cfg t env w) as D.
  destruct (Wait cfg t env w) as [[|] w1|e w1|w1] eqn:HW.
  - destruct (Wait_true_slot_set _ _ _ _ _ HW) as [v R]. rewrite R.
    split; [discriminate|]. intros p w' E. inversion E; subst. eauto.
  - split; [discriminate|]. intros p w' E. inversion E; subst.
    intro Hw. pose proof (Wait_reports_slot _ _ _ _ _ _ Hw HW) as B.
    destruct (result_ (holder w')); [discriminate | reflexivity].
  - split; [discriminate|]. intros p w' E; discriminate.
  - exfalso; eapply D; reflexivity.
Qed.

Lemma Wait_returns_not_waiting : forall cfg t (env : list (EnvAction Result)) w b w',
  waiting_ (holder w) = false ->
  Wait cfg t env w = Returns b w' ->
  waiting_ (holder w') = false.
Proof.
  intros cfg t env w b w' Hw H. rewrite Wait_unfold, Hw in H.
  destruct (sequence_ok cfg t w); [|discriminate].
  destruct (result_ (holder w)) as [v|] eqn:R.
  - inversion H; subst. exact Hw.
  - apply Wait_blocking_reports_slot in H. tauto.
Qed.

(** X2. When a [Wait] on a holder that was not already waiting returns, the
    value it returns is the one [IsReady] reports in the state it returns in,
    and [waiting_] is false there. *)
Theorem Wait_returns_what_IsReady_reports :
  forall cfg t (env : list (EnvAction Result)) w b w',
    waiting_ (holder w) = false ->
    Wait cfg t env w = Returns b w' ->
    IsReady w' = Returns b w' /\ waiting_ (holder w') = false.
Proof.
  intros cfg t env w b w' Hw H. split.
  - rewrite (Wait_reports_slot _ _ _ _ _ _ Hw H). reflexivity.
  - eapply Wait_returns_not_waiting; eauto.
Qed.

Lemma keeps_returned {A : Type} (R : World Result -> World Result -> Prop)
    (m : M Result A) w a w' :
  keeps R m -> m w = Returns a w' -> R w w'.
Proof. intros K E. specialize (K w). rewrite E in K. exact K. Qed.

Ltac kept_by_same_waiting :=
  first [ exact same_waiting_refl | exact same_waiting_trans
        | exact same_waiting_emit | exact same_waiting_emplace
        | exact same_waiting_StopPump ].

Lemma Set_same_waiting : forall cfg t (args : Result),
  keeps same_waiting (Set_ cfg t args).
Proof. intros; apply keeps_Set; kept_by_same_waiting. Qed.

Lemma wait_for_same_waiting : forall cfg (env : list (EnvAction Result)),
  keeps same_waiting (wait_for cfg env).
Proof. intros; apply keeps_wait_for; kept_by_same_waiting. Qed.

Lemma PumpMessagesWithTimeout_same_waiting :
  forall cfg ms (env : list (EnvAction Result)),
    keeps same_waiting (PumpMessagesWithTimeout cfg ms env).
Proof. intros; apply keeps_PumpMessagesWithTimeout; kept_by_same_waiting. Qed.

Lemma run_op_returns_not_waiting : forall cfg (op : Op Result) w w',
  waiting_ (holder w) = false ->
  run_op Result_name cfg op w = Returns tt w' ->
  waiting_ (holder w') = false.
Proof.
  intros cfg op w w' Hw H.
  assert (SW : forall (m : M Result unit),
             keeps same_waiting m -> m w = Returns tt w' ->
             waiting_ (holder w') = false).
  { intros m K E. pose proof (keeps_returned _ _ _ _ _ K E) as S.
    unfold same_waiting in S. congruence. }
  destruct op as [t args|t env|t env|t env| |ms env|]; simpl in H.
  - eapply SW; [|exact H].
    apply Set_same_waiting.
  - unfold bind in H.
    destruct (Wait cfg t env w) as [b w1|e w1|w1] eqn:HW; try discriminate.
    inversion H; subst. eapply Wait_returns_not_waiting; eauto.
  - unfold bind in H. rewrite TryGet_after_Wait in H.
    destruct (Wait cfg t env w) as [[|] w1|e w1|w1] eqn:HW; try discriminate.
    + destruct (result_ (holder w1)); [|discriminate].
      inversion H; subst. eapply Wait_returns_not_waiting; eauto.
    + inversion H; subst. eapply Wait_returns_not_waiting; eauto.
  - unfold bind in H. rewrite Get_after_Wait in H.
    destruct (Wait cfg t env w) as [[|] w1|e w1|w1] eqn:HW; try discriminate.
    destruct (result_ (holder w1)); [|discriminate].
    inversion H; subst. eapply Wait_returns_not_waiting; eauto.
  - inversion H; subst. exact Hw.
  - eapply SW; [|exact H].
    apply PumpMessagesWithTimeout_same_waiting.
  - eapply SW; [|exact H]. apply same_waiting_StopPump.
Qed.

(** X3. [waiting_] is true only inside a [Wait]: started on a holder that is
    not waiting, a run of calls that all return ends on a holder that is not
    waiting. *)
Theorem waiting_is_false_between_calls :
  forall cfg (ops : list (Op Result)) w w',
    waiting_ (holder w) = false ->
    run_ops Result_name cfg ops w = Returns tt w' ->
    waiting_ (holder w') = false.
Proof.
  intros cfg ops; induction ops as [|op ops IH]; intros w w' Hw H; simpl in H.
  - inversion H; subst; exact Hw.
  - unfold bind in H.
    destruct (run_op Result_name cfg op w) as [[] w1|e w1|w1] eqn:E;
      try discriminate.
    apply (IH w1 w'); [|exact H].
    eapply run_op_returns_not_waiting; eauto.
Qed.

(** ** How a blocking Wait ends *)

(** The slow path, once the pump has been entered. *)
Lemma Wait_blocking_unfold : forall cfg (env : list (EnvAction Result)) w,
  Wait_blocking cfg env w =
  match wait_for cfg env
          (logged (EvPumpMessages kFutureTimeout) (world_of (set_waiting true w))) with
  | Returns _ w1 =>
      Returns (has_value (result_ (holder w1))) (world_of (set_waiting false w1))
  | Aborts e w1 => Aborts e w1
  | Undefined w1 => Undefined w1
  end.
Proof.
  intros cfg env w. unfold Wait_blocking, PumpMessagesWithTimeout.
  unfold bind at 1. simpl. unfold bind at 1. unfold bind at 1. simpl.
  unfold logged; simpl.
  destruct (wait_for cfg env _) as [[] w1|e w1|w1]; reflexivity.
Qed.

(** The state a [Wait] woken by a delivery returns in. *)
Lemma Wait_woken_by_delivery_eq :
  forall cfg t t' (args : Result) (rest : list (EnvAction Result)) w,
    sequence_ok cfg t w = true ->
    sequence_ok cfg t' w = true ->
    waiting_ (holder w) = false ->
    result_ (holder w) = None ->
    stop_requested w = false ->
    Wait cfg t (EnvSet t' args :: rest) w =
    Returns true
      {| holder := {| sequence_checker_ := sequence_checker_ (holder w);
                      result_ := Some args;
                      waiting_ := false;
                      sender_ := sender_ (holder w);
                      token_ := token_ (holder w) |};
         loop_pumper := {| stop_pump_ := true |};
         trace := trace w ++ [EvPumpMessages kFutureTimeout; EvNotifyOne] |}.
Proof.
  intros cfg t t' args rest w Ht Ht' W R S.
  rewrite Wait_unfold, Ht, W, R, Wait_blocking_unfold.
  unfold stop_requested in S.
  destruct w as [[sc r wt sd tk] [stop] tr]; simpl in *; subst.
  unfold bind. rewrite Set_unfold. unfold sequence_ok in *; simpl in *.
  rewrite Ht'. simpl.
  destruct rest; simpl; rewrite <- app_assoc; reflexivity.
Qed.

(** X4. A delivery wakes the waiter.  On a holder that is not waiting, whose
    slot is empty, with no stop request pending, a [Wait] during which [Set]
    is called first (both calls passing the sequence check) returns true: the
    payload is stored, [waiting_] is false again, the pumper has been
    notified once and its stop request is set; whatever else the environment
    had in store within the window is not looked at. *)
Theorem Wait_woken_by_delivery :
  forall cfg t t' (args : Result) (rest : list (EnvAction Result)) w,
    sequence_ok cfg t w = true ->
    sequence_ok cfg t' w = true ->
    waiting_ (holder w) = false ->
    result_ (holder w) = None ->
    stop_requested w = false ->
    Wait cfg t (EnvSet t' args :: rest) w =
    Returns true
      {| holder := {| sequence_checker_ := sequence_checker_ (holder w);
                      result_ := Some args;
                      waiting_ := false;
                      sender_ := sender_ (holder w);
                      token_ := token_ (holder w) |};
         loop_pumper := {| stop_pump_ := true |};
         trace := trace w ++ [EvPumpMessages kFutureTimeout; EvNotifyOne] |}.
Proof. exact Wait_woken_by_delivery_eq. Qed.

(** X5. Nothing happens within the window: on a holder that is not waiting,
    whose slot is empty, with no stop request pending, [Wait] enters the pump
    once and returns false with the holder and the pumper as they were;
    [TryGet] then returns the null pointer and [Get], after its line on
    [std::cerr], dereferences it. *)
Theorem Wait_times_out_when_nothing_is_delivered :
  forall cfg t (w : World Result),
    sequence_ok cfg t w = true ->
    waiting_ (holder w) = false ->
    result_ (holder w) = None ->
    stop_requested w = false ->
    Wait cfg t [] w = Returns false (logged (EvPumpMessages kFutureTimeout) w) /\
    TryGet cfg t [] w = Returns nullptr (logged (EvPumpMessages kFutureTimeout) w) /\
    Get Result_name cfg t [] w =
      Undefined (logged (EvCerr (timeout_message Result_name))
                   (logged (EvPumpMessages kFutureTimeout) w)).
Proof.
  intros cfg t w Ht W R S.
  assert (E : Wait cfg t [] w = Returns false (logged (EvPumpMessages kFutureTimeout) w)).
  { rewrite Wait_unfold, Ht, W, R, Wait_blocking_unfold.
    unfold stop_requested in S.
    destruct w as [[sc r wt sd tk] [stop] tr]; simpl in *; subst. reflexivity. }
  split; [exact E|]. split.
  - rewrite TryGet_after_Wait, E. reflexivity.
  - rewrite Get_after_Wait, E. reflexivity.
Qed.

(** X6. A stop request left over from an earlier wake-up ends the next wait at
    once.  On a holder that is not waiting and whose slot is empty, with the
    pumper's stop request already set, [Wait] returns false without anything
    of the environment taking place, deliveries included. *)
Theorem Wait_does_not_block_after_stop_request :
  forall cfg t (env : list (EnvAction Result)) w,
    sequence_ok cfg t w = true ->
    waiting_ (holder w) = false ->
    result_ (holder w) = None ->
    stop_requested w = true ->
    Wait cfg t env w = Returns false (logged (EvPumpMessages kFutureTimeout) w).
Proof.
  intros cfg t env w Ht W R S.
  rewrite Wait_unfold, Ht, W, R, Wait_blocking_unfold.
  unfold stop_requested in S.
  destruct w as [[sc r wt sd tk] [stop] tr]; simpl in *; subst.
  destruct env; reflexivity.
Qed.


(** ** The thread check *)

(** X8. With assertions compiled in, [Set], [Wait], [TryGet] and [Get] called
    on a thread other than the one that constructed the holder are stopped by
    the sequence assertion before they read or write anything; [IsReady]
    makes no such check and answers on any thread. *)
Theorem calls_from_another_thread_abort :
  forall cfg t (args : Result) (env : list (EnvAction Result)) w,
    NDEBUG cfg = false ->
    CalledOnValidSequence (sequence_checker_ (holder w)) t = false ->
    Set_ cfg t args w = Aborts sequence_message w /\
    Wait cfg t env w = Aborts sequence_message w /\
    TryGet cfg t env w = Aborts sequence_message w /\
    Get Result_name cfg t env w = Aborts sequence_message w /\
    IsReady w = Returns (has_value (result_ (holder w))) w.
Proof.
  intros cfg t args env w Hd Ht.
  assert (S : sequence_ok cfg t w = false)
    by (unfold sequence_ok; rewrite Hd, Ht; reflexivity).
  assert (W : Wait cfg t env w = Aborts sequence_message w)
    by (rewrite Wait_unfold, S; reflexivity).
  repeat split.
  - rewrite Set_unfold, S; reflexivity.
  - exact W.
  - rewrite TryGet_after_Wait, W; reflexivity.
  - rewrite Get_after_Wait, W; reflexivity.
Qed.

(** ** Builds without assertions *)

Section Release.

Variable cfg : Config.
Hypothesis no_assert : NDEBUG cfg = true.
Hypothesis soft_expect : EXPECT_TRUE_fatal cfg = false.

Lemma release_sequence_ok : forall t (w : World Result), sequence_ok cfg t w = true.
Proof. intros t w. unfold sequence_ok. rewrite no_assert. reflexivity. Qed.

Lemma release_Set_returns : forall t (args : Result) w,
  returns (Set_ cfg t args w) = true.
Proof.
  intros t args w. rewrite Set_unfold, release_sequence_ok, soft_expect.
  destruct (result_ (holder w)); reflexivity.
Qed.

Lemma release_wait_for_returns : forall (env : list (EnvAction Result)) w,
  returns (wait_for cfg env w) = true.
Proof.
  induction env as [|a env IH]; intro w; simpl.
  - destruct (stop_pump_ (loop_pumper w)); reflexivity.
  - destruct (stop_pump_ (loop_pumper w)); [reflexivity|].
    unfold bind. destruct a as [t args|]; simpl.
    + pose proof (release_Set_returns t args w) as S.
      destruct (Set_ cfg t args w) as [[] w1|e w1|w1]; try discriminate.
      apply IH.
    + apply IH.
Qed.

Lemma release_Wait_returns : forall t (env : list (EnvAction Result)) w,
  returns (Wait cfg t env w) = true.
Proof.
  intros t env w. rewrite Wait_unfold, release_sequence_ok, no_assert.
  destruct (waiting_ (holder w)); [reflexivity|].
  destruct (result_ (holder w)); [reflexivity|].
  rewrite Wait_blocking_unfold.
  match goal with |- context [wait_for cfg env ?x] =>
    pose proof (release_wait_for_returns env x) as P;
    destruct (wait_for cfg env x) as [[] w1|e w1|w1]
  end; try discriminate. reflexivity.
Qed.

Lemma release_run_op_not_fatal : forall (op : Op Result) w,
  is_fatal (run_op Result_name cfg op w) = false.
Proof.
  intros [t args|t env|t env|t env| |ms env|] w; simpl.
  - pose proof (release_Set_returns t args w) as S.
    destruct (Set_ cfg t args w); try discriminate; reflexivity.
  - unfold bind. pose proof (release_Wait_returns t env w) as S.
    destruct (Wait cfg t env w); try discriminate; reflexivity.
  - unfold bind. rewrite TryGet_after_Wait.
    pose proof (release_Wait_returns t env w) as S.
    destruct (Wait cfg t env w) as [[|] w1|e w1|w1]; try discriminate;
      [destruct (result_ (holder w1))|]; reflexivity.
  - unfold bind. rewrite Get_after_Wait.
    pose proof (release_Wait_returns t env w) as S.
    destruct (Wait cfg t env w) as [[|] w1|e w1|w1]; try discriminate;
      [destruct (result_ (holder w1))|]; reflexivity.
  - reflexivity.
  - unfold PumpMessagesWithTimeout, bind; simpl.
    match goal with |- context [wait_for cfg env ?x] =>
      pose proof (release_wait_for_returns env x) as P;
      destruct (wait_for cfg env x) as [[] w1|e w1|w1]
    end; try discriminate. reflexivity.
  - reflexivity.
Qed.

Lemma release_run_ops_not_fatal : forall (ops : list (Op Result)) w,
  is_fatal (run_ops Result_name cfg ops w) = false.
Proof.
  induction ops as [|op ops IH]; intro w; simpl; [reflexivity|].
  unfold bind. pose proof (release_run_op_not_fatal op w) as F.
  destruct (run_op Result_name cfg op w) as [[] w1|e w1|w1];
    [apply IH | discriminate | reflexivity].
Qed.

End Release.

(** X9. With [NDEBUG] defined and an [EXPECT_TRUE] that lets execution
    continue, no check stops a call.  [Set], [Wait] and [TryGet] return on
    every thread, in every state and with every delivery, and so do the
    constructor, whatever status the add method answers, and the destructor,
    resolved or not.  [Get] is the one call that may not return, and then not
    because of a check: its [Wait] returned false and it dereferences the
    null pointer after its line on [std::cerr].  No run of operations ends in
    an abort. *)
Theorem no_check_stops_a_call_without_assertions :
  forall cfg,
    NDEBUG cfg = true ->
    EXPECT_TRUE_fatal cfg = false ->
    (forall t (args : Result) w, returns (Set_ cfg t args w) = true) /\
    (forall t (env : list (EnvAction Result)) w,
        returns (Wait cfg t env w) = true /\
        returns (TryGet cfg t env w) = true /\
        (returns (Get Result_name cfg t env w) = false ->
         exists w1,
           Wait cfg t env w = Returns false w1 /\
           Get Result_name cfg t env w =
             Undefined (logged (EvCerr (timeout_message Result_name)) w1))) /\
    (forall t sender pumper tr,
        returns (EventResultHolder_new Result cfg t sender pumper tr) = true) /\
    (forall w : World Result, returns (EventResultHolder_delete cfg w) = true) /\
    (forall (ops : list (Op Result)) w,
        is_fatal (run_ops Result_name cfg ops w) = false).
Proof.
  intros cfg Hn He. split; [|split; [|split; [|split]]].
  - intros t args w. apply release_Set_returns; assumption.
  - intros t env w.
    pose proof (release_Wait_returns cfg Hn He t env w) as P.
    split; [exact P|].
    rewrite TryGet_after_Wait, Get_after_Wait.
    destruct (Wait cfg t env w) as [[|] w1|e w1|w1] eqn:HW; try discriminate.
    + destruct (Wait_true_slot_set _ _ _ _ _ HW) as [v R]. rewrite R.
      split; [reflexivity | discriminate].
    + split; [reflexivity|]. intros _. exists w1. split; reflexivity.
  - intros t sender pumper tr. unfold EventResultHolder_new, assert.
    rewrite Hn. reflexivity.
  - intro w. unfold EventResultHolder_delete, bind, RemoveMethod, get_result, assert.
    rewrite Hn. reflexivity.
  - intros ops w. apply release_run_ops_not_fatal; assumption.
Qed.

(** ** What no operation touches *)

Ltac kept_by_same_binding :=
  first [ exact same_binding_refl | exact same_binding_trans
        | exact same_binding_emit | exact same_binding_emplace
        | exact same_binding_StopPump | exact same_binding_set_waiting ].

Lemma run_op_same_binding : forall cfg (op : Op Result),
  keeps same_binding (run_op Result_name cfg op).
Proof. intros; apply keeps_run_op; kept_by_same_binding. Qed.

Lemma run_ops_same_binding : forall cfg (ops : list (Op Result)),
  keeps same_binding (run_ops Result_name cfg ops).
Proof. intros; apply keeps_run_ops; kept_by_same_binding. Qed.

Lemma same_binding_sequence_ok : forall cfg t (w w' : World Result),
  same_binding w w' -> sequence_ok cfg t w' = sequence_ok cfg t w.
Proof.
  intros cfg t w w' (A & _). unfold sequence_ok. rewrite A. reflexivity.
Qed.

(** X10. No run of the holder's operations, however it ends, re-binds the
    holder: the owning thread, the sender and the registration token are
    those of the start, so a thread passes the sequence check at the end
    exactly if it did at the start; and the diagnostics of the start are
    still there, with the new ones after them. *)
Theorem binding_never_changes :
  forall cfg (ops : list (Op Result)) w,
    let w' := world_of (run_ops Result_name cfg ops w) in
    sequence_checker_ (holder w') = sequence_checker_ (holder w) /\
    sender_ (holder w') = sender_ (holder w) /\
    token_ (holder w') = token_ (holder w) /\
    (forall t, sequence_ok cfg t w' = sequence_ok cfg t w) /\
    exists later, trace w' = (trace w ++ later)%list.
Proof.
  intros cfg ops w w'.
  pose proof (run_ops_same_binding cfg ops w) as B. fold w' in B.
  pose proof B as (A1 & A2 & A3 & A4).
  repeat split; auto.
  intro t. apply same_binding_sequence_ok; exact B.
Qed.

(** ** Reading the result back *)

Lemma Get_fast_path : forall cfg t (env : list (EnvAction Result)) w v,
  sequence_ok cfg t w = true ->
  waiting_ (holder w) = false ->
  result_ (holder w) = Some v ->
  Get Result_name cfg t env w = Returns v w.
Proof.
  intros cfg t env w v S W R.
  rewrite Get_after_Wait, Wait_unfold, S, W, R, R. reflexivity.
Qed.

(** X11. Once a result is stored it is the one [Get] returns, whatever was
    called in between.  From a holder that is not waiting and holds [v], after
    any run of operations that all return, from any threads and with any
    deliveries, [Get] on a thread that passes the sequence check returns [v]
    at once and changes nothing. *)
Theorem Get_after_any_run_returns_the_stored_result :
  forall cfg (ops : list (Op Result)) t (env : list (EnvAction Result)) w w' v,
    result_ (holder w) = Some v ->
    waiting_ (holder w) = false ->
    sequence_ok cfg t w = true ->
    run_ops Result_name cfg ops w = Returns tt w' ->
    Get Result_name cfg t env w' = Returns v w'.
Proof.
  intros cfg ops; induction ops as [|op ops IH]; intros t env w w' v R W S H;
    simpl in H.
  - inversion H; subst. apply Get_fast_path; assumption.
  - unfold bind in H.
    destruct (run_op Result_name cfg op w) as [[] w1|e w1|w1] eqn:E;
      try discriminate.
    apply (IH t env w1 w' v); [| | |exact H].
    + pose proof (monotone_run_op cfg op w) as [HR _]. rewrite E in HR.
      apply HR; exact R.
    + eapply run_op_returns_not_waiting; eauto.
    + pose proof (run_op_same_binding cfg op w) as B. rewrite E in B.
      rewrite (same_binding_sequence_ok cfg t w w1 B). exact S.
Qed.

(** X12. [Get] on a holder whose [waiting_] is true never returns, even when
    the result is already stored: with assertions compiled in it is stopped
    by a failed assertion; with assertions compiled out its [TryGet] yields
    the null pointer, the timeout line is written and the null pointer is
    dereferenced. *)
Theorem Get_while_waiting_never_returns :
  forall cfg t (env : list (EnvAction Result)) w,
    waiting_ (holder w) = true ->
    returns (Get Result_name cfg t env w) = false /\
    (NDEBUG cfg = true ->
     Get Result_name cfg t env w =
       Undefined (logged (EvCerr (timeout_message Result_name)) w)) /\
    (NDEBUG cfg = false -> is_fatal (Get Result_name cfg t env w) = true).
Proof.
  intros cfg t env w W. rewrite Get_after_Wait, Wait_unfold, W.
  unfold sequence_ok.
  destruct (NDEBUG cfg); simpl.
  - repeat split; auto; try discriminate.
  - destruct (CalledOnValidSequence (sequence_checker_ (holder w)) t);
      repeat split; auto; try discriminate.
Qed.

(** ** The destructor *)

(** X13. The destructor's assertion follows what the accessors found.  In the
    state a [Get] returned in, it passes and the destructor returns.  In the
    state a [TryGet] on a holder that was not waiting returned the null
    pointer in, the result is unset, and with assertions compiled in the
    destructor is fatal. *)
Theorem destructor_asserts_the_result :
  forall cfg t (env : list (EnvAction Result)) w,
    (forall v w',
        Get Result_name cfg t env w = Returns v w' ->
        EventResultHolder_delete cfg w' = Returns tt w') /\
    (forall w',
        TryGet cfg t env w = Returns nullptr w' ->
        waiting_ (holder w) = false ->
        NDEBUG cfg = false ->
        EventResultHolder_delete cfg w' = Aborts "result_" w').
Proof.
  intros cfg t env w. split.
  - intros v w' G. rewrite Get_after_Wait in G.
    destruct (Wait cfg t env w) as [[|] w1|e w1|w1]; try discriminate.
    destruct (result_ (holder w1)) as [v1|] eqn:R; [|discriminate].
    inversion G; subst.
    unfold EventResultHolder_delete, bind, RemoveMethod, get_result, assert.
    rewrite R. simpl. destruct (NDEBUG cfg); reflexivity.
  - intros w' T W Hd. rewrite TryGet_after_Wait in T.
    destruct (Wait cfg t env w) as [[|] w1|e w1|w1] eqn:HW; try discriminate.
    + destruct (result_ (holder w1)); discriminate.
    + inversion T; subst.
      pose proof (Wait_reports_slot _ _ _ _ _ _ W HW) as B.
      unfold EventResultHolder_delete, bind, RemoveMethod, get_result, assert.
      rewrite Hd. destruct (result_ (holder w')); [discriminate | reflexivity].
Qed.

(** ** The handler *)

(** X14. With assertions compiled in, the handler runs to its end only when
    [QueryInterface] and the remove method both answer a non-zero status and
    the notifying sender is [sender_]; it then returns 1.  In particular an
    invocation in which [QueryInterface] answers [S_OK] is stopped by the
    first assertion, before [Set]: nothing is stored and the callback is not
    called. *)
Theorem Handler_completes_only_on_nonzero_statuses :
  forall cfg t (inv : Invocation Result) got_args w,
    NDEBUG cfg = false ->
    (forall hr w',
        Handler cfg t inv got_args w = Returns hr w' ->
        QueryInterface_hr inv <> 0 /\
        same_sender inv = true /\
        RemoveMethod_hr (sender_ (holder w')) <> 0 /\
        hr = 1) /\
    (QueryInterface_hr inv = S_OK ->
     Handler cfg t inv got_args w = Aborts "got_sender->QueryInterface" w).
Proof.
  intros cfg t inv got_args w Hd. split.
  - intros hr w' H. unfold Handler, assert_call, assert in H. rewrite Hd in H.
    unfold bind at 1 in H. unfold bind at 1 in H. unfold QueryInterface in H.
    destruct (QueryInterface_hr inv =? 0) eqn:Q; simpl in H; [discriminate|].
    unfold ret at 1 in H. unfold bind at 1 in H.
    destruct (same_sender inv) eqn:SS; simpl in H; [|discriminate].
    unfold ret at 1 in H. unfold bind at 1 in H.
    destruct (Set_ cfg t got_args w) as [[] w1|e w1|w1]; try discriminate.
    unfold bind, RemoveMethod, ret, abort in H.
    assert (X : exists w2,
               (if negb (RemoveMethod_hr (sender_ (holder w2)) =? 0)
                then Returns (A := HRESULT) 1 w2
                else Aborts "RemoveMethod" w2) = Returns hr w').
    { destruct (callback inv) as [f|].
      - destruct (f got_args w1) as [[] w2|e w2|w2]; try discriminate.
        exists w2. destruct (RemoveMethod_hr (sender_ (holder w2)) =? 0); exact H.
      - exists w1. destruct (RemoveMethod_hr (sender_ (holder w1)) =? 0); exact H. }
    destruct X as [w2 X].
    destruct (RemoveMethod_hr (sender_ (holder w2)) =? 0) eqn:RM; simpl in X;
      [discriminate|].
    clear H. rename X into H.
    inversion H; subst.
    apply Z.eqb_neq in Q. apply Z.eqb_neq in RM. auto.
  - intro Q. unfold Handler, assert_call. rewrite Hd.
    unfold bind at 1. unfold bind at 1. unfold QueryInterface.
    rewrite Q. reflexivity.
Qed.

End Properties.

(** * The properties at concrete holders *)

(** A run in the build with assertions: the holder is constructed over a sender
    whose add method answers a non-zero status, the handler delivers 42 while
    the owner waits, [Wait] and [Get] see it, and a second [Set] changes
    nothing. *)
Example deliver_then_get :
  EventResultHolder_new Z debug_build 0%nat (a_sender S_FALSE) EventPumper_new []
    = Returns tt (a_world None false false) /\
  (exists w, Wait debug_build 0%nat [EnvSet 0%nat 42] (a_world None false false)
               = Returns true w /\
             result_ (holder w) = Some 42 /\
             waiting_ (holder w) = false /\
             stop_requested w = true /\
             Get "i" debug_build 0%nat [] w = Returns 42 w /\
             holder (world_of (Set_ debug_build 0%nat 43 w)) = holder w).
Proof.
  split; [reflexivity|].
  eexists. split; [vm_compute; reflexivity|].
  repeat split.
Qed.

(** Nothing is delivered within the window: [Wait] returns false and [Get]
    runs into the null pointer after writing its line. *)
Example timeout_then_get :
  Wait debug_build 0%nat [] (a_world None false false)
    = Returns false (logged (EvPumpMessages 30) (a_world None false false)) /\
  Get "i" debug_build 0%nat [] (a_world None false false)
    = Undefined
        (logged (EvCerr "Timed out or interrupted waiting for a result of type i")
           (logged (EvPumpMessages 30) (a_world None false false))).
Proof. split; reflexivity. Qed.

(** The stop request of an earlier wait is still set: the next wait on another
    unresolved holder does not block at all and the delivery that would have
    come within its window is not seen. *)
Example stale_stop_request_ends_next_wait :
  Wait debug_build 0%nat [EnvSet 0%nat 42] (a_world None false true)
    = Returns false (logged (EvPumpMessages 30) (a_world None false true)).
Proof. reflexivity. Qed.

Lemma Get_returns_stored_result_or_dereferences_unset_witness :
  (exists v, result_ (holder (a_world (Some 3) false false)) = Some v /\
             Get "i" debug_build 0%nat [] (a_world (Some 3) false false)
               = Returns v (a_world (Some 3) false false)) /\
  Get "i" release_build 1%nat [] (a_world None false false)
    = Undefined
        (logged (EvCerr (timeout_message "i"))
           (logged (EvPumpMessages 30) (a_world None false false))).
Proof.
  split.
  - pose proof (Get_returns_stored_result_or_dereferences_unset Z "i"
                  debug_build 0%nat [] (a_world (Some 3) false false)) as H.
    destruct H as [H _]. simpl in H. destruct H as [_ H]. exact H.
  - pose proof (Get_returns_stored_result_or_dereferences_unset Z "i"
                  release_build 1%nat [] (a_world None false false)) as H.
    destruct H as [H _]. simpl in H. destruct H as [_ H]. exact H.
Defined.

(** C2, at the two statuses.  In the build with assertions the constructor is
    stopped by its assertion when the add method answers [S_OK], the success
    status, and completes when it answers the failure status [E_FAIL]. *)
Theorem EventResultHolder_new_aborts_on_S_OK_accepts_E_FAIL :
  SUCCEEDED S_OK = true /\
  EventResultHolder_new Z debug_build 0%nat (a_sender S_OK) EventPumper_new []
    = Aborts "(hr)"
        {| holder := {| sequence_checker_ := {| id_ := 0%nat |};
                        result_ := None;
                        waiting_ := false;
                        sender_ := a_sender S_OK;
                        token_ := 17 |};
           loop_pumper := EventPumper_new;
           trace := [] |} /\
  FAILED E_FAIL = true /\
  is_fatal (EventResultHolder_new Z debug_build 0%nat (a_sender E_FAIL)
              EventPumper_new []) = false.
Proof. repeat split. Qed.

(** A second [Set] on the owning thread, in the build with assertions and
    GoogleTest's [EXPECT_TRUE], returns. *)
Lemma Set_twice_is_not_fatal :
  result_ (holder (a_world (Some 3) false false)) = Some 3 /\
  Set_ debug_build 0%nat 9 (a_world (Some 3) false false)
    = Returns tt (logged (EvExpectFailure set_once_message)
                    (a_world (Some 3) false false)) /\
  is_fatal (Set_ debug_build 0%nat 9 (a_world (Some 3) false false)) = false.
Proof. repeat split. Qed.

Lemma Set_twice_rejected_without_storing_witness :
  result_ (holder (a_world (Some 3) true false)) = Some 3 /\
  holder (world_of (Set_ debug_build 0%nat 9 (a_world (Some 3) true false)))
    = a_holder (Some 3) true /\
  is_fatal (Set_ debug_build 1%nat 9 (a_world (Some 3) true false)) = true.
Proof.
  split; [reflexivity|]. split.
  - exact (proj1 (Set_twice_rejected_without_storing Z debug_build 0%nat 9
                    (a_world (Some 3) true false) 3 eq_refl)).
  - exact (proj1 (proj2 (proj2
             (Set_twice_rejected_without_storing Z debug_build 1%nat 9
                (a_world (Some 3) true false) 3 eq_refl)))).
Defined.

Lemma Set_stores_payload_and_signals_iff_waiting_witness :
  sequence_ok debug_build 0%nat (a_world None true false) = true /\
  result_ (holder (a_world None true false)) = None /\
  exists w',
    Set_ debug_build 0%nat 9 (a_world None true false) = Returns tt w' /\
    result_ (holder w') = Some 9 /\
    stop_requested w' = true.
Proof.
  split; [reflexivity|]. split; [reflexivity|].
  destruct (Set_stores_payload_and_signals_iff_waiting Z debug_build 0%nat 9
              (a_world None true false) eq_refl eq_refl)
    as (w' & E & R & _ & _ & S & _).
  exists w'. repeat split; auto.
Defined.

Lemma Set_on_set_result_returns_early_unchanged_witness :
  sequence_ok debug_build 0%nat (a_world (Some 3) true false) = true /\
  EXPECT_TRUE_fatal debug_build = false /\
  result_ (holder (a_world (Some 3) true false)) = Some 3 /\
  exists w',
    Set_ debug_build 0%nat 9 (a_world (Some 3) true false) = Returns tt w' /\
    result_ (holder w') = Some 3 /\
    loop_pumper w' = {| stop_pump_ := false |} /\
    notifications w' = 0%nat.
Proof.
  do 3 (split; [reflexivity|]).
  destruct (Set_on_set_result_returns_early_unchanged Z debug_build 0%nat 9
              (a_world (Some 3) true false) 3 eq_refl eq_refl eq_refl)
    as (w' & E & R & _ & _ & P & N).
  exists w'. repeat split; auto.
Defined.

Lemma Wait_returns_true_at_once_when_result_set_witness :
  sequence_ok debug_build 0%nat (a_world (Some 3) false false) = true /\
  waiting_ (holder (a_world (Some 3) false false)) = false /\
  result_ (holder (a_world (Some 3) false false)) = Some 3 /\
  Wait debug_build 0%nat [EnvSet 0%nat 9; EnvStopPump] (a_world (Some 3) false false)
    = Returns true (a_world (Some 3) false false).
Proof.
  do 3 (split; [reflexivity|]).
  exact (Wait_returns_true_at_once_when_result_set Z debug_build 0%nat
           [EnvSet 0%nat 9; EnvStopPump] (a_world (Some 3) false false) 3
           eq_refl eq_refl eq_refl).
Defined.

(** With assertions compiled out, a [Wait] from another thread while the owner
    is blocked is not fatal: it returns false. *)
Lemma Wait_while_waiting_returns_without_assertions :
  waiting_ (holder (a_world None true false)) = true /\
  Wait release_build 1%nat [EnvSet 0%nat 9] (a_world None true false)
    = Returns false (a_world None true false) /\
  is_fatal (Wait release_build 1%nat [EnvSet 0%nat 9] (a_world None true false))
    = false.
Proof. repeat split. Qed.

Lemma Wait_while_waiting_rejected_without_blocking_witness :
  waiting_ (holder (a_world None true false)) = true /\
  is_fatal (Wait debug_build 1%nat [EnvSet 0%nat 9] (a_world None true false)) = true /\
  world_of (Wait debug_build 1%nat [EnvSet 0%nat 9] (a_world None true false))
    = a_world None true false /\
  Wait release_build 1%nat [EnvSet 0%nat 9] (a_world None true false)
    = Returns false (a_world None true false).
Proof.
  split; [reflexivity|].
  destruct (Wait_while_waiting_rejected_without_blocking Z debug_build 1%nat
              [EnvSet 0%nat 9] (a_world None true false) eq_refl)
    as (W & _ & F & _).
  destruct (Wait_while_waiting_rejected_without_blocking Z release_build 1%nat
              [EnvSet 0%nat 9] (a_world None true false) eq_refl)
    as (_ & _ & _ & R).
  split; [exact F|]. split; [exact W | exact (R eq_refl)].
Defined.

(** In the build with assertions a [Wait] on a waiting holder whose slot is
    filled does not return false: it does not return. *)
Lemma Wait_while_waiting_does_not_return_false :
  waiting_ (holder (a_world (Some 3) true false)) = true /\
  Wait debug_build 0%nat [] (a_world (Some 3) true false)
    = Aborts "!waiting_" (a_world (Some 3) true false) /\
  Wait debug_build 0%nat [] (a_world (Some 3) true false)
    <> Returns false (a_world (Some 3) true false).
Proof. repeat split. discriminate. Qed.

Lemma Wait_while_waiting_ignores_result_witness :
  waiting_ (holder (a_world (Some 3) true false)) = true /\
  Wait release_build 0%nat [] (a_world (Some 3) true false)
    = Returns false (a_world (Some 3) true false) /\
  Wait release_build 0%nat [] (a_world None true false)
    = Returns false (a_world None true false).
Proof.
  split; [reflexivity|]. split.
  - exact (proj1 (Wait_while_waiting_ignores_result Z release_build 0%nat []
                    (a_world (Some 3) true false) eq_refl)).
  - exact (proj1 (Wait_while_waiting_ignores_result Z release_build 0%nat []
                    (a_world None true false) eq_refl)).
Defined.

Lemma result_is_written_at_most_once_witness :
  nth_error (a_world None false false
             :: trajectory "i" debug_build
                  [OpSet 0%nat 3; OpSet 0%nat 4; OpWait 0%nat [EnvSet 0%nat 5];
                   OpGet 0%nat []]
                  (a_world None false false)) 1
    = Some (a_world (Some 3) false false) /\
  (exists w4,
     nth_error (a_world None false false
                :: trajectory "i" debug_build
                     [OpSet 0%nat 3; OpSet 0%nat 4; OpWait 0%nat [EnvSet 0%nat 5];
                      OpGet 0%nat []]
                     (a_world None false false)) 4
       = Some w4 /\
     result_ (holder w4) = Some 3).
Proof.
  split; [reflexivity|].
  eexists. split; [reflexivity|].
  apply (proj1 (result_is_written_at_most_once Z "i" debug_build
                  [OpSet 0%nat 3; OpSet 0%nat 4; OpWait 0%nat [EnvSet 0%nat 5];
                   OpGet 0%nat []]
                  (a_world None false false))
          1%nat 4%nat (a_world (Some 3) false false) _ 3).
  - lia.
  - reflexivity.
  - reflexivity.
  - reflexivity.
Defined.

Lemma stop_request_is_never_reset_witness :
  stop_requested (a_world None false true) = true /\
  (exists w3,
     nth_error (a_world None false true
                :: trajectory "i" debug_build
                     [OpPumpMessagesWithTimeout 30 [EnvSet 0%nat 5];
                      OpWait 0%nat []; OpStopPump]
                     (a_world None false true)) 3
       = Some w3 /\
     stop_requested w3 = true).
Proof.
  split; [reflexivity|].
  eexists. split; [reflexivity|].
  apply (proj2 (stop_request_is_never_reset Z "i" debug_build
                  [OpPumpMessagesWithTimeout 30 [EnvSet 0%nat 5];
                   OpWait 0%nat []; OpStopPump]
                  (a_world None false true))
          0%nat 3%nat (a_world None false true) _).
  - lia.
  - reflexivity.
  - reflexivity.
  - reflexivity.
Defined.

(** * The further properties at concrete holders *)

Lemma TryGet_never_reads_empty_result_witness :
  TryGet debug_build 0%nat [EnvSet 0%nat 5] (a_world None false false)
    = Returns addressof_result
        (logged EvNotifyOne
           (logged (EvPumpMessages 30) (a_world (Some 5) false true))) /\
  exists v,
    result_ (holder (logged EvNotifyOne
                       (logged (EvPumpMessages 30) (a_world (Some 5) false true))))
    = Some v.
Proof.
  split; [reflexivity|].
  exact (proj2 (TryGet_never_reads_empty_result Z debug_build 0%nat
                  [EnvSet 0%nat 5] (a_world None false false))
           addressof_result _ eq_refl).
Defined.

Lemma Wait_returns_what_IsReady_reports_witness :
  waiting_ (holder (a_world None false false)) = false /\
  Wait debug_build 0%nat [] (a_world None false false)
    = Returns false (logged (EvPumpMessages 30) (a_world None false false)) /\
  IsReady (logged (EvPumpMessages 30) (a_world None false false))
    = Returns false (logged (EvPumpMessages 30) (a_world None false false)).
Proof.
  do 2 (split; [reflexivity|]).
  exact (proj1 (Wait_returns_what_IsReady_reports Z debug_build 0%nat []
                  (a_world None false false) false _ eq_refl eq_refl)).
Defined.

Lemma waiting_is_false_between_calls_witness :
  waiting_ (holder (a_world None false false)) = false /\
  run_ops "i" debug_build
    [OpWait 0%nat [EnvSet 0%nat 5]; OpSet 0%nat 6; OpGet 0%nat []]
    (a_world None false false)
    = Returns tt
        (logged (EvExpectFailure set_once_message)
           (logged EvNotifyOne
              (logged (EvPumpMessages 30) (a_world (Some 5) false true)))) /\
  waiting_ (holder
              (logged (EvExpectFailure set_once_message)
                 (logged EvNotifyOne
                    (logged (EvPumpMessages 30) (a_world (Some 5) false true)))))
    = false.
Proof.
  do 2 (split; [reflexivity|]).
  exact (waiting_is_false_between_calls Z "i" debug_build
           [OpWait 0%nat [EnvSet 0%nat 5]; OpSet 0%nat 6; OpGet 0%nat []]
           (a_world None false false) _ eq_refl eq_refl).
Defined.

Lemma Wait_woken_by_delivery_witness :
  sequence_ok debug_build 0%nat (a_world None false false) = true /\
  stop_requested (a_world None false false) = false /\
  Wait debug_build 0%nat [EnvSet 0%nat 5; EnvSet 0%nat 6] (a_world None false false)
    = Returns true
        (logged EvNotifyOne
           (logged (EvPumpMessages 30) (a_world (Some 5) false true))).
Proof.
  do 2 (split; [reflexivity|]).
  exact (Wait_woken_by_delivery Z debug_build 0%nat 0%nat 5 [EnvSet 0%nat 6]
           (a_world None false false) eq_refl eq_refl eq_refl eq_refl eq_refl).
Defined.

Lemma Wait_times_out_when_nothing_is_delivered_witness :
  sequence_ok release_build 4%nat (a_world None false false) = true /\
  TryGet release_build 4%nat [] (a_world None false false)
    = Returns nullptr (logged (EvPumpMessages 30) (a_world None false false)).
Proof.
  split; [reflexivity|].
  exact (proj1 (proj2
           (Wait_times_out_when_nothing_is_delivered Z "i" release_build 4%nat
              (a_world None false false) eq_refl eq_refl eq_refl eq_refl))).
Defined.

Lemma Wait_does_not_block_after_stop_request_witness :
  stop_requested (a_world None false true) = true /\
  Wait debug_build 0%nat [EnvSet 0%nat 5] (a_world None false true)
    = Returns false (logged (EvPumpMessages 30) (a_world None false true)).
Proof.
  split; [reflexivity|].
  exact (Wait_does_not_block_after_stop_request Z debug_build 0%nat
           [EnvSet 0%nat 5] (a_world None false true)
           eq_refl eq_refl eq_refl eq_refl).
Defined.


Lemma calls_from_another_thread_abort_witness :
  NDEBUG debug_build = false /\
  CalledOnValidSequence (sequence_checker_ (holder (a_world (Some 3) false false))) 1%nat
    = false /\
  Get "i" debug_build 1%nat [] (a_world (Some 3) false false)
    = Aborts sequence_message (a_world (Some 3) false false) /\
  IsReady (a_world (Some 3) false false)
    = Returns true (a_world (Some 3) false false).
Proof.
  do 2 (split; [reflexivity|]).
  destruct (calls_from_another_thread_abort Z "i" debug_build 1%nat 9 []
              (a_world (Some 3) false false) eq_refl eq_refl)
    as (_ & _ & _ & G & I).
  split; [exact G | exact I].
Defined.

Lemma no_check_stops_a_call_without_assertions_witness :
  NDEBUG release_build = true /\
  EXPECT_TRUE_fatal release_build = false /\
  returns (Set_ release_build 2%nat 5 (a_world (Some 3) true false)) = true /\
  returns (Wait release_build 1%nat [] (a_world None true false)) = true /\
  (exists w1,
     Wait release_build 0%nat [] (a_world None false false) = Returns false w1 /\
     Get "i" release_build 0%nat [] (a_world None false false)
       = Undefined (logged (EvCerr (timeout_message "i")) w1)) /\
  returns (EventResultHolder_new Z release_build 0%nat (a_sender S_OK)
             EventPumper_new []) = true /\
  returns (EventResultHolder_delete release_build (a_world None false false)) = true.
Proof.
  do 2 (split; [reflexivity|]).
  destruct (no_check_stops_a_call_without_assertions Z "i" release_build
              eq_refl eq_refl) as (A & B & C & D & _).
  split; [apply A|]. split; [apply B|]. split.
  - apply (proj2 (proj2 (B 0%nat [] (a_world None false false)))). reflexivity.
  - split; [apply C | apply D].
Defined.

Lemma Get_after_any_run_returns_the_stored_result_witness :
  result_ (holder (a_world (Some 3) false false)) = Some 3 /\
  run_ops "i" debug_build [OpSet 0%nat 4; OpWait 0%nat []; OpStopPump]
    (a_world (Some 3) false false)
    = Returns tt
        (logged EvNotifyOne
           (logged (EvExpectFailure set_once_message) (a_world (Some 3) false true))) /\
  Get "i" debug_build 0%nat [EnvSet 0%nat 7]
    (logged EvNotifyOne
       (logged (EvExpectFailure set_once_message) (a_world (Some 3) false true)))
    = Returns 3
        (logged EvNotifyOne
           (logged (EvExpectFailure set_once_message) (a_world (Some 3) false true))).
Proof.
  do 2 (split; [reflexivity|]).
  exact (Get_after_any_run_returns_the_stored_result Z "i" debug_build
           [OpSet 0%nat 4; OpWait 0%nat []; OpStopPump] 0%nat [EnvSet 0%nat 7]
           (a_world (Some 3) false false) _ 3 eq_refl eq_refl eq_refl eq_refl).
Defined.

Lemma Get_while_waiting_never_returns_witness :
  waiting_ (holder (a_world (Some 3) true false)) = true /\
  returns (Get "i" release_build 0%nat [] (a_world (Some 3) true false)) = false /\
  Get "i" release_build 0%nat [] (a_world (Some 3) true false)
    = Undefined (logged (EvCerr (timeout_message "i")) (a_world (Some 3) true false)).
Proof.
  split; [reflexivity|].
  destruct (Get_while_waiting_never_returns Z "i" release_build 0%nat []
              (a_world (Some 3) true false) eq_refl) as (A & B & _).
  split; [exact A | exact (B eq_refl)].
Defined.

Lemma destructor_asserts_the_result_witness :
  EventResultHolder_delete debug_build (a_world (Some 3) false false)
    = Returns tt (a_world (Some 3) false false) /\
  EventResultHolder_delete debug_build
    (logged (EvPumpMessages 30) (a_world None false false))
    = Aborts "result_" (logged (EvPumpMessages 30) (a_world None false false)).
Proof.
  split.
  - exact (proj1 (destructor_asserts_the_result Z "i" debug_build 0%nat []
                    (a_world (Some 3) false false)) 3 _ eq_refl).
  - exact (proj2 (destructor_asserts_the_result Z "i" debug_build 0%nat []
                    (a_world None false false)) _ eq_refl eq_refl eq_refl).
Defined.

Lemma Handler_completes_only_on_nonzero_statuses_witness :
  NDEBUG debug_build = false /\
  Handler debug_build 0%nat an_invocation 5 (b_world None)
    = Returns 1 (b_world (Some 5)) /\
  QueryInterface_hr an_invocation <> 0 /\
  Handler debug_build 0%nat an_S_OK_invocation 5 (b_world None)
    = Aborts "got_sender->QueryInterface" (b_world None).
Proof.
  do 2 (split; [reflexivity|]).
  destruct (Handler_completes_only_on_nonzero_statuses Z debug_build 0%nat
              an_invocation 5 (b_world None) eq_refl) as [A _].
  destruct (Handler_completes_only_on_nonzero_statuses Z debug_build 0%nat
              an_S_OK_invocation 5 (b_world None) eq_refl) as [_ B].
  split.
  - exact (proj1 (A 1 (b_world (Some 5)) eq_refl)).
  - exact (B eq_refl).
Defined.
